(** * jira_create_release.py: the release workflow client

    A shallow embedding of [JiraReleaseCreator] and of the part of Python and
    of the [requests] library it relies on, followed by the properties of the
    workflow: create a release, query the tickets of a status, attach the
    release to each ticket.

    Modelling conventions.
    - Python values that travel through the script (decoded JSON documents,
      request payloads) are terms of [json].  Numbers are integers; floating
      point numbers are outside the model.  A dict is the list of its items in
      insertion order; the keys of a dict are pairwise distinct.
    - Text is a [string], one [ascii] per character.
    - An f-string is kept as the list of its parts, so that no rendering of
      nested containers ([repr]) has to be modelled; [render] gives the text
      when every formatted value is a scalar.
    - The tracker is an arbitrary deterministic server: a state type and a
      function answering each HTTP call.  A computation returns, next to its
      result and the world it leaves, the console lines and HTTP exchanges
      it produced, in order.
    - [sys.exit] and uncaught exceptions end the process: a computation
      returns [Abort] and nothing after it runs. *)

From Stdlib Require Import String Ascii List ZArith Lia Bool Arith.
From Stdlib Require Import DecimalString.
Import ListNotations.
Open Scope string_scope.
Open Scope list_scope.

(** ** Values *)

#[local] Set Warnings "-register-all".

Inductive json : Type :=
| JNull
| JBool (b : bool)
| JInt (n : Z)
| JStr (s : string)
| JArr (items : list json)
| JObj (items : list (string * json)).

(** How a process ends before its last statement: [sys.exit(code)], or an
    exception nobody catches (the interpreter prints the traceback and exits
    with status 1). *)
Inductive abort : Type :=
| SysExit (code : Z)
| Uncaught (exc : string).

Definition exit_code (e : abort) : Z :=
  match e with
  | SysExit c => c
  | Uncaught _ => 1
  end.

Inductive result (A : Type) : Type :=
| Ok (a : A)
| Abort (e : abort).
Arguments Ok {A} a.
Arguments Abort {A} e.

Definition AttributeError := Uncaught "AttributeError".
Definition KeyError := Uncaught "KeyError".
Definition TypeError := Uncaught "TypeError".

(** ** Python operations on values *)

Fixpoint lookup {A : Type} (k : string) (kvs : list (string * A)) : option A :=
  match kvs with
  | [] => None
  | (k', v) :: rest => if String.eqb k k' then Some v else lookup k rest
  end.

Definition has_key {A : Type} (k : string) (kvs : list (string * A)) : bool :=
  match lookup k kvs with Some _ => true | None => false end.

(** [d[k] = v] *)
Fixpoint dict_set (k : string) (v : json) (kvs : list (string * json))
  : list (string * json) :=
  match kvs with
  | [] => [(k, v)]
  | (k', v') :: rest =>
      if String.eqb k k' then (k', v) :: rest else (k', v') :: dict_set k v rest
  end.

(** [a == b] *)
Fixpoint py_eq (a b : json) {struct a} : bool :=
  match a, b with
  | JNull, JNull => true
  | JBool x, JBool y => Bool.eqb x y
  | JBool x, JInt n => (n =? (if x then 1 else 0))%Z
  | JInt n, JBool x => (n =? (if x then 1 else 0))%Z
  | JInt m, JInt n => (m =? n)%Z
  | JStr s, JStr t => String.eqb s t
  | JArr xs, JArr ys =>
      (fix all2 (xs ys : list json) {struct xs} : bool :=
         match xs, ys with
         | [], [] => true
         | x :: xs', y :: ys' => py_eq x y && all2 xs' ys'
         | _, _ => false
         end) xs ys
  | JObj xs, JObj ys =>
      (length xs =? length ys)%nat &&
      (fix all_in (xs : list (string * json)) {struct xs} : bool :=
         match xs with
         | [] => true
         | (k, v) :: xs' =>
             match lookup k ys with
             | Some v' => py_eq v v'
             | None => false
             end && all_in xs'
         end) xs
  | _, _ => false
  end.

(** [x in xs] for a list [xs] *)
Definition py_in (x : json) (xs : list json) : bool := existsb (py_eq x) xs.

(** [bool(v)] *)
Definition py_truthy (v : json) : bool :=
  match v with
  | JNull => false
  | JBool b => b
  | JInt n => negb (n =? 0)%Z
  | JStr s => negb (String.eqb s "")
  | JArr l => match l with [] => false | _ => true end
  | JObj l => match l with [] => false | _ => true end
  end.

(** [v.get(k, default)] *)
Definition py_get (v : json) (k : string) (default : json) : result json :=
  match v with
  | JObj kvs => Ok (match lookup k kvs with Some x => x | None => default end)
  | _ => Abort AttributeError
  end.

(** [v[k]] for a string [k] *)
Definition py_getitem (v : json) (k : string) : result json :=
  match v with
  | JObj kvs => match lookup k kvs with Some x => Ok x | None => Abort KeyError end
  | _ => Abort TypeError
  end.

Fixpoint chars (s : string) : list json :=
  match s with
  | EmptyString => []
  | String c rest => JStr (String c EmptyString) :: chars rest
  end.

(** The elements a [for] loop or a comprehension goes through. *)
Definition py_iter (v : json) : result (list json) :=
  match v with
  | JArr l => Ok l
  | JObj kvs => Ok (map (fun kv => JStr (fst kv)) kvs)
  | JStr s => Ok (chars s)
  | _ => Abort TypeError
  end.

(** [len(v)] *)
Definition py_len (v : json) : result nat :=
  match v with
  | JArr l => Ok (length l)
  | JObj kvs => Ok (length kvs)
  | JStr s => Ok (String.length s)
  | _ => Abort TypeError
  end.

Fixpoint substring_of (needle hay : string) : bool :=
  String.prefix needle hay ||
  match hay with
  | EmptyString => false
  | String _ rest => substring_of needle rest
  end.

(** [k in v] for a string [k] *)
Definition py_contains_str (k : string) (v : json) : result bool :=
  match v with
  | JObj kvs => Ok (has_key k kvs)
  | JArr l => Ok (py_in (JStr k) l)
  | JStr s => Ok (substring_of k s)
  | _ => Abort TypeError
  end.

Definition upper_ascii (c : ascii) : ascii :=
  let n := nat_of_ascii c in
  if (97 <=? n)%nat && (n <=? 122)%nat then ascii_of_nat (n - 32) else c.

(** [s.upper()] *)
Fixpoint upper (s : string) : string :=
  match s with
  | EmptyString => EmptyString
  | String c rest => String (upper_ascii c) (upper rest)
  end.

(** ** Dates *)

Record datetime : Type := { year : nat; month : nat; day : nat }.

Definition decimal (n : nat) : string := NilZero.string_of_uint (Nat.to_uint n).

Fixpoint zeros (n : nat) : string :=
  match n with
  | O => EmptyString
  | S n' => String "0" (zeros n')
  end.

Definition zero_pad (width n : nat) : string :=
  let s := decimal n in (zeros (width - String.length s) ++ s)%string.

(** [d.strftime("%Y-%m-%d")] *)
Definition strftime_ymd (d : datetime) : string :=
  (zero_pad 4 (year d) ++ "-" ++ zero_pad 2 (month d) ++ "-" ++ zero_pad 2 (day d))%string.

(** ** f-strings, HTTP calls and what the world records *)

Record response : Type := {
  status_code : Z;
  text : string;
  (** the value of [response.json()], [None] when the body is not a JSON
      document *)
  json_body : option json
}.

(** [response.ok], also the truth value of a response object: false exactly
    when [raise_for_status] raises. *)
Definition ok (r : response) : bool :=
  negb ((400 <=? status_code r)%Z && (status_code r <? 600)%Z).

(** The [requests.exceptions.RequestException] instances the script can
    meet, each with its [response] attribute: an exception raised by the
    call itself, the [HTTPError] of [raise_for_status], and the
    [JSONDecodeError] of [response.json()] (a [RequestException] since
    requests 2.27; it carries no response). *)
Inductive request_exception : Type :=
| TransportError (msg : string) (resp : option response)
| HTTPError (resp : response)
| JSONDecodeError.

Definition exc_response (e : request_exception) : option response :=
  match e with
  | TransportError _ r => r
  | HTTPError r => Some r
  | JSONDecodeError => None
  end.

Inductive part : Type :=
| Lit (s : string)
| Fmt (v : json)
| FmtExc (e : request_exception).

Definition fstring := list part.

(** [str(v)] of a scalar. *)
Definition py_str (v : json) : option string :=
  match v with
  | JNull => Some "None"
  | JBool true => Some "True"
  | JBool false => Some "False"
  | JInt n => Some (NilZero.string_of_int (Z.to_int n))
  | JStr s => Some s
  | _ => None
  end.

Fixpoint render (f : fstring) : option string :=
  match f with
  | [] => Some ""
  | p :: rest =>
      match (match p with Lit s => Some s | Fmt v => py_str v | FmtExc _ => None end),
            render rest with
      | Some a, Some b => Some (a ++ b)%string
      | _, _ => None
      end
  end.

Definition credentials : Type := option string * option string.

(** A call of [requests.get], [requests.post] or [requests.put] with the
    arguments the script passes. *)
Inductive http_call : Type :=
| requests_get (url : fstring) (auth : credentials)
    (headers : list (string * string)) (params : option json)
| requests_post (url : fstring) (auth : credentials)
    (headers : list (string * string)) (data : option json)
| requests_put (url : fstring) (auth : credentials)
    (headers : list (string * string)) (data : option json).

(** What such a call does: it returns a response or raises a
    [RequestException] with a message and, for some, a response. *)
Inductive transport : Type :=
| Responded (r : response)
| Raised (msg : string) (resp : option response).

Inductive event : Type :=
| EvPrint (line : fstring)
| EvHttp (call : http_call) (answer : transport).

(** The value the [try] block of [_make_jira_request] computes from the
    answer to the call, or the exception it raises. *)
Definition response_value (t : transport) : request_exception + json :=
  match t with
  | Raised msg r => inl (TransportError msg r)
  | Responded r =>
      if negb (ok r) then inl (HTTPError r)
      else if (status_code r =? 204)%Z || String.eqb (text r) "" then inr (JObj [])
      else match json_body r with
           | Some v => inr v
           | None => inl JSONDecodeError
           end
  end.

Record JiraReleaseCreator : Type := {
  release_name : string;
  project_name : string;
  ticket_status : string;
  jira_base_url : string;
  jira_username : option string;
  jira_api_token : option string
}.

Definition dquote : string := String (ascii_of_nat 34) EmptyString.

Section Tracker.

(** The tracker: its state and how it answers a call. *)
Context {S : Type}.
Variable serve : S -> http_call -> transport * S.

Record world : Type := {
  environ : list (string * string);
  clock : datetime;
  server : S
}.

Definition with_server (s : S) (w : world) : world :=
  {| environ := environ w; clock := clock w; server := s |}.

(** ** The monad of the script: state, events and early exit *)

Definition M (A : Type) : Type := world -> result A * world * list event.

Definition ret {A : Type} (a : A) : M A := fun w => (Ok a, w, []).

Definition bind {A B : Type} (m : M A) (k : A -> M B) : M B :=
  fun w =>
    match m w with
    | (Ok a, w1, evs1) => let '(r, w2, evs2) := k a w1 in (r, w2, evs1 ++ evs2)
    | (Abort e, w1, evs1) => (Abort e, w1, evs1)
    end.

Notation "x <- m ;; k" := (bind m (fun x => k))
  (at level 61, m at next level, right associativity).
Notation "m ;; k" := (bind m (fun _ => k))
  (at level 61, right associativity).

Definition lift {A : Type} (r : result A) : M A := fun w => (r, w, []).

Definition sys_exit {A : Type} (code : Z) : M A :=
  fun w => (Abort (SysExit code), w, []).

Definition print (line : fstring) : M unit := fun w => (Ok tt, w, [EvPrint line]).

Definition http (c : http_call) : M transport :=
  fun w =>
    let (t, s') := serve (server w) c in
    (Ok t, with_server s' w, [EvHttp c t]).

(** [os.environ.get(name)] *)
Definition getenv (name : string) : M (option string) :=
  fun w => (Ok (lookup name (environ w)), w, []).

(** [datetime.now()] *)
Definition datetime_now : M datetime := fun w => (Ok (clock w), w, []).

Fixpoint for_each {A : Type} (body : A -> M unit) (xs : list A) : M unit :=
  match xs with
  | [] => ret tt
  | x :: rest => body x ;; for_each body rest
  end.

Fixpoint map_result {A B : Type} (f : A -> result B) (xs : list A) : result (list B) :=
  match xs with
  | [] => Ok []
  | x :: rest =>
      match f x with
      | Abort e => Abort e
      | Ok y => match map_result f rest with
                | Abort e => Abort e
                | Ok ys => Ok (y :: ys)
                end
      end
  end.

(** ** The class *)

(** [bool(s)] for an optional string: [None] and the empty string are false *)
Definition str_truthy (s : option string) : bool :=
  match s with
  | None => false
  | Some s => negb (String.eqb s "")
  end.

Definition __init__ (release_name project_name ticket_status : string)
  : M JiraReleaseCreator :=
  base <- getenv "JIRA_BASE_URL" ;;
  username <- getenv "JIRA_USERNAME" ;;
  token <- getenv "JIRA_API_TOKEN" ;;
  let self := {|
    release_name := release_name;
    project_name := project_name;
    ticket_status := ticket_status;
    jira_base_url :=
      match base with
      | Some b => b
      | None => "https://your-jira-instance.atlassian.net"
      end;
    jira_username := username;
    jira_api_token := token |} in
  if negb (str_truthy username) || negb (str_truthy token) then
    print [Lit "Error: JIRA_USERNAME and JIRA_API_TOKEN environment variables must be set."] ;;
    sys_exit 1
  else ret self.

(** The [except requests.exceptions.RequestException] clause. *)
Definition request_failed {A : Type} (e : request_exception) : M A :=
  print [Lit "Error making request to JIRA API: "; FmtExc e] ;;
  match exc_response e with
  | Some r =>
      if ok r then
        print [Lit "Response status code: "; Fmt (JInt (status_code r))] ;;
        print [Lit "Response body: "; Fmt (JStr (text r))]
      else ret tt
  | None => ret tt
  end ;;
  sys_exit 1.

Definition _make_jira_request (self : JiraReleaseCreator) (url : fstring)
  (method : string) (params data : option json) : M json :=
  let auth := (jira_username self, jira_api_token self) in
  let headers := [("Content-Type", "application/json")] in
  let m := upper method in
  if String.eqb m "GET" then
    t <- http (requests_get url auth headers params) ;;
    match response_value t with inr v => ret v | inl e => request_failed e end
  else if String.eqb m "POST" then
    t <- http (requests_post url auth headers data) ;;
    match response_value t with inr v => ret v | inl e => request_failed e end
  else if String.eqb m "PUT" then
    t <- http (requests_put url auth headers data) ;;
    match response_value t with inr v => ret v | inl e => request_failed e end
  else
    print [Lit "Error: Unsupported HTTP method: "; Fmt (JStr method)] ;;
    sys_exit 1.

Definition get_current_user (self : JiraReleaseCreator) : M json :=
  let url := [Fmt (JStr (jira_base_url self)); Lit "/rest/api/2/myself"] in
  _make_jira_request self url "GET" None None.

(** Lines 109-119: the payload of the creation request. *)
Definition release_data (self : JiraReleaseCreator) (today : datetime)
  (current_user : json) : result (list (string * json)) :=
  let data := [
    ("name", JStr (release_name self));
    ("project", JStr (project_name self));
    ("released", JBool false);
    ("userReleaseDate", JStr (strftime_ymd today));
    ("projectId", JNull) ] in
  if py_truthy current_user then
    match py_contains_str "key" current_user with
    | Abort e => Abort e
    | Ok true =>
        match py_getitem current_user "key" with
        | Abort e => Abort e
        | Ok owner => Ok (dict_set "owner" owner data)
        end
    | Ok false => Ok data
    end
  else Ok data.

Definition create_release (self : JiraReleaseCreator) : M json :=
  current_user <- get_current_user self ;;
  let url := [Fmt (JStr (jira_base_url self)); Lit "/rest/api/2/version"] in
  today <- datetime_now ;;
  data <- lift (release_data self today current_user) ;;
  print [Lit "Creating release '"; Fmt (JStr (release_name self));
         Lit "' in project '"; Fmt (JStr (project_name self)); Lit "'..."] ;;
  response <- _make_jira_request self url "POST" None (Some (JObj data)) ;;
  name <- lift (py_get response "name" (JStr (release_name self))) ;;
  print [Lit "Release created successfully: "; Fmt name] ;;
  ret response.

Definition get_tickets_with_status (self : JiraReleaseCreator) : M json :=
  let jql := ("project = " ++ dquote ++ project_name self ++ dquote ++
              " AND status = " ++ dquote ++ ticket_status self ++ dquote ++
              " ORDER BY created ASC")%string in
  let url := [Fmt (JStr (jira_base_url self)); Lit "/rest/api/2/search"] in
  let params := JObj [
    ("jql", JStr jql);
    ("fields", JStr "key,summary,status,fixVersions");
    ("maxResults", JInt 1000) ] in
  response <- _make_jira_request self url "GET" (Some params) None ;;
  issues <- lift (py_get response "issues" (JArr [])) ;;
  n <- lift (py_len issues) ;;
  print [Lit "Found "; Fmt (JInt (Z.of_nat n)); Lit " issues with status '";
         Fmt (JStr (ticket_status self)); Lit "' in project '";
         Fmt (JStr (project_name self)); Lit "'"] ;;
  ret issues.

(** Lines 161-162: the ids of the versions the issue already has. *)
Definition current_fix_version_ids (issue : json) : result (list json) :=
  match py_get issue "fields" (JObj []) with
  | Abort e => Abort e
  | Ok fields =>
      match py_get fields "fixVersions" (JArr []) with
      | Abort e => Abort e
      | Ok current_fix_versions =>
          match py_iter current_fix_versions with
          | Abort e => Abort e
          | Ok vs => map_result (fun v => py_getitem v "id") vs
          end
      end
  end.

(** Lines 170-174: [{"fields": {"fixVersions": [{"id": v}, ...]}}]. *)
Definition fix_versions_data (ids : list json) : json :=
  JObj [("fields",
         JObj [("fixVersions",
                JArr (map (fun version_id => JObj [("id", version_id)]) ids))])].

(** The body of the loop of [add_fix_version_to_tickets]. *)
Definition add_fix_version_to_ticket (self : JiraReleaseCreator)
  (release_id issue : json) : M unit :=
  issue_key <- lift (py_getitem issue "key") ;;
  current_fix_version_ids <- lift (current_fix_version_ids issue) ;;
  if negb (py_in release_id current_fix_version_ids) then
    let current_fix_version_ids := current_fix_version_ids ++ [release_id] in
    let url := [Fmt (JStr (jira_base_url self)); Lit "/rest/api/2/issue/"; Fmt issue_key] in
    let data := fix_versions_data current_fix_version_ids in
    _make_jira_request self url "PUT" None (Some data) ;;
    print [Lit "Added fixVersion to issue "; Fmt issue_key]
  else
    print [Lit "Issue "; Fmt issue_key; Lit " already has the fixVersion"].

Definition add_fix_version_to_tickets (self : JiraReleaseCreator)
  (release_id issues : json) : M unit :=
  issues <- lift (py_iter issues) ;;
  for_each (add_fix_version_to_ticket self release_id) issues.

Definition run (self : JiraReleaseCreator) : M unit :=
  print [Lit "Starting JIRA Release Creator"] ;;
  release <- create_release self ;;
  release_id <- lift (py_get release "id" JNull) ;;
  if negb (py_truthy release_id) then
    print [Lit "Error: Failed to get release ID from the created release"] ;;
    sys_exit 1
  else
    issues <- get_tickets_with_status self ;;
    add_fix_version_to_tickets self release_id issues ;;
    print [Lit "JIRA Release Creator completed successfully!"] ;;
    n <- lift (py_len issues) ;;
    print [Lit "Created release '"; Fmt (JStr (release_name self));
           Lit "' and added it as a fixVersion to "; Fmt (JInt (Z.of_nat n));
           Lit " issues"].

(** [main], from the parsed command line on. *)
Definition main (release_name project ticket_status : string) : M unit :=
  creator <- __init__ release_name project ticket_status ;;
  run creator.

End Tracker.

Arguments world S : clear implicits.
Arguments M S A : clear implicits.

(** ** Reading the events of a run *)

Definition is_http (ev : event) : bool :=
  match ev with
  | EvHttp _ _ => true
  | EvPrint _ => false
  end.

(** The release-creation request: the only POST of the script. *)
Definition is_creation (ev : event) : bool :=
  match ev with
  | EvHttp (requests_post _ _ _ _) _ => true
  | _ => false
  end.

(** The ticket query: the GET on the search resource. *)
Definition is_query (ev : event) : bool :=
  match ev with
  | EvHttp (requests_get [_; Lit p] _ _ _) _ => String.eqb p "/rest/api/2/search"
  | _ => false
  end.

(** A ticket update: the only PUT of the script. *)
Definition is_update (ev : event) : bool :=
  match ev with
  | EvHttp (requests_put _ _ _ _) _ => true
  | _ => false
  end.

(** What [_make_jira_request] returned for the exchange, if it returned. *)
Definition answer_value (ev : event) : option json :=
  match ev with
  | EvHttp _ t => match response_value t with inr v => Some v | inl _ => None end
  | EvPrint _ => None
  end.

(** The request of the exchange failed: the call raised, the status was an
    error status, or the body was not JSON. *)
Definition request_fails (t : transport) : bool :=
  match response_value t with inl _ => true | inr _ => false end.

(** A ticket update whose request failed. *)
Definition failed_update (ev : event) : bool :=
  match ev with
  | EvHttp (requests_put _ _ _ _) t => request_fails t
  | _ => false
  end.

(** Wherever a failed ticket update occurs in [evs], the process ended by
    [sys.exit(1)] and only console lines follow it. *)
Definition stops_at_failed_update (r : result unit) (evs : list event) : Prop :=
  forall pre ev post,
    evs = pre ++ ev :: post ->
    failed_update ev = true ->
    r = Abort (SysExit 1) /\ Forall (fun ev' => is_http ev' = false) post.

Definition omits_id (v : json) : bool :=
  match v with
  | JObj kvs => negb (has_key "id" kvs)
  | _ => true
  end.

Definition already_line (issue_key : json) : event :=
  EvPrint [Lit "Issue "; Fmt issue_key; Lit " already has the fixVersion"].

Definition added_line (issue_key : json) : event :=
  EvPrint [Lit "Added fixVersion to issue "; Fmt issue_key].

Definition is_already_line (ev : event) : bool :=
  match ev with
  | EvPrint [Lit a; Fmt _; Lit b] =>
      String.eqb a "Issue " && String.eqb b " already has the fixVersion"
  | _ => false
  end.

Definition summary_line (self : JiraReleaseCreator) (n : nat) : event :=
  EvPrint [Lit "Created release '"; Fmt (JStr (release_name self));
           Lit "' and added it as a fixVersion to "; Fmt (JInt (Z.of_nat n));
           Lit " issues"].

Definition start_line : event :=
  EvPrint [Lit "Starting JIRA Release Creator"].

Definition creating_line (self : JiraReleaseCreator) : event :=
  EvPrint [Lit "Creating release '"; Fmt (JStr (release_name self));
           Lit "' in project '"; Fmt (JStr (project_name self)); Lit "'..."].

Definition created_line (name : json) : event :=
  EvPrint [Lit "Release created successfully: "; Fmt name].

Definition no_id_line : event :=
  EvPrint [Lit "Error: Failed to get release ID from the created release"].

Definition found_line (self : JiraReleaseCreator) (n : nat) : event :=
  EvPrint [Lit "Found "; Fmt (JInt (Z.of_nat n)); Lit " issues with status '";
           Fmt (JStr (ticket_status self)); Lit "' in project '";
           Fmt (JStr (project_name self)); Lit "'"].

Definition done_line : event :=
  EvPrint [Lit "JIRA Release Creator completed successfully!"].

(** The lines of the [except] clause of [_make_jira_request]. *)
Definition failure_lines (e : request_exception) : list event :=
  EvPrint [Lit "Error making request to JIRA API: "; FmtExc e] ::
  match exc_response e with
  | Some r =>
      if ok r then
        [EvPrint [Lit "Response status code: "; Fmt (JInt (status_code r))];
         EvPrint [Lit "Response body: "; Fmt (JStr (text r))]]
      else []
  | None => []
  end.

Definition json_headers : list (string * string) :=
  [("Content-Type", "application/json")].

Definition auth_of (self : JiraReleaseCreator) : credentials :=
  (jira_username self, jira_api_token self).

Definition issue_url (self : JiraReleaseCreator) (issue_key : json) : fstring :=
  [Fmt (JStr (jira_base_url self)); Lit "/rest/api/2/issue/"; Fmt issue_key].

(** The GET that identifies the acting user. *)
Definition user_call (self : JiraReleaseCreator) : http_call :=
  requests_get [Fmt (JStr (jira_base_url self)); Lit "/rest/api/2/myself"]
    (auth_of self) json_headers None.

(** The POST that creates the release. *)
Definition create_call (self : JiraReleaseCreator) (data : list (string * json))
  : http_call :=
  requests_post [Fmt (JStr (jira_base_url self)); Lit "/rest/api/2/version"]
    (auth_of self) json_headers (Some (JObj data)).

(** The GET that queries the tickets. *)
Definition query_call (self : JiraReleaseCreator) : http_call :=
  requests_get [Fmt (JStr (jira_base_url self)); Lit "/rest/api/2/search"]
    (auth_of self) json_headers
    (Some (JObj [
       ("jql", JStr ("project = " ++ dquote ++ project_name self ++ dquote ++
                     " AND status = " ++ dquote ++ ticket_status self ++ dquote ++
                     " ORDER BY created ASC")%string);
       ("fields", JStr "key,summary,status,fixVersions");
       ("maxResults", JInt 1000) ])).

(** The PUT that replaces the version list of a ticket by [ids]. *)
Definition update_call (self : JiraReleaseCreator) (issue_key : json)
  (ids : list json) : http_call :=
  requests_put (issue_url self issue_key) (auth_of self) json_headers
    (Some (fix_versions_data ids)).

(** The version ids a payload [{"fields": {"fixVersions": [{"id": v}, ...]}}]
    carries. *)
Definition data_version_ids (data : json) : result (list json) :=
  match py_getitem data "fields" with
  | Abort e => Abort e
  | Ok fields =>
      match py_getitem fields "fixVersions" with
      | Abort e => Abort e
      | Ok (JArr vs) => map_result (fun v => py_getitem v "id") vs
      | Ok _ => Abort TypeError
      end
  end.

(** The console, line by line, where [render] knows the text. *)
Definition console (evs : list event) : list (option string) :=
  flat_map (fun ev => match ev with
                      | EvPrint line => [render line]
                      | EvHttp _ _ => []
                      end) evs.

Fixpoint count (p : event -> bool) (evs : list event) : nat :=
  match evs with
  | [] => 0
  | ev :: rest => (if p ev then 1 else 0) + count p rest
  end.

(** The shape of what the loop over the tickets produces: per ticket either
    the line of a skipped ticket, or an answered update and its line; the
    loop ends with the list, with a failed update, or with an exception
    raised while a ticket is read. *)
Inductive loop_trace (self : JiraReleaseCreator) (release_id : json)
  : list json -> result unit -> list event -> Prop :=
| loop_end : loop_trace self release_id [] (Ok tt) []
| loop_raise issue rest exc :
    (py_getitem issue "key" = Abort (Uncaught exc) \/
     current_fix_version_ids issue = Abort (Uncaught exc)) ->
    loop_trace self release_id (issue :: rest) (Abort (Uncaught exc)) []
| loop_skip issue rest issue_key ids r evs :
    py_getitem issue "key" = Ok issue_key ->
    current_fix_version_ids issue = Ok ids ->
    py_in release_id ids = true ->
    loop_trace self release_id rest r evs ->
    loop_trace self release_id (issue :: rest) r (already_line issue_key :: evs)
| loop_update issue rest issue_key ids t v r evs :
    py_getitem issue "key" = Ok issue_key ->
    current_fix_version_ids issue = Ok ids ->
    py_in release_id ids = false ->
    response_value t = inr v ->
    loop_trace self release_id rest r evs ->
    loop_trace self release_id (issue :: rest) r
      (EvHttp (update_call self issue_key (ids ++ [release_id])) t
       :: added_line issue_key :: evs)
| loop_fail issue rest issue_key ids t e :
    py_getitem issue "key" = Ok issue_key ->
    current_fix_version_ids issue = Ok ids ->
    py_in release_id ids = false ->
    response_value t = inl e ->
    loop_trace self release_id (issue :: rest) (Abort (SysExit 1))
      (EvHttp (update_call self issue_key (ids ++ [release_id])) t
       :: failure_lines e).

(** What follows the ticket query, given its answer [t] and the release
    id. *)
Inductive tickets_trace (self : JiraReleaseCreator) (release_id : json)
  : transport -> result unit -> list event -> Prop :=
| query_failed t e :
    response_value t = inl e ->
    tickets_trace self release_id t (Abort (SysExit 1)) (failure_lines e)
| query_unreadable t found exc :
    response_value t = inr found ->
    (py_get found "issues" (JArr []) = Abort (Uncaught exc) \/
     exists issues, py_get found "issues" (JArr []) = Ok issues /\
                    py_len issues = Abort (Uncaught exc)) ->
    tickets_trace self release_id t (Abort (Uncaught exc)) []
| tickets_aborted t found issues its e evs :
    response_value t = inr found ->
    py_get found "issues" (JArr []) = Ok issues ->
    py_len issues = Ok (length its) ->
    py_iter issues = Ok its ->
    loop_trace self release_id its (Abort e) evs ->
    tickets_trace self release_id t (Abort e) (found_line self (length its) :: evs)
| tickets_updated t found issues its evs :
    response_value t = inr found ->
    py_get found "issues" (JArr []) = Ok issues ->
    py_len issues = Ok (length its) ->
    py_iter issues = Ok its ->
    loop_trace self release_id its (Ok tt) evs ->
    tickets_trace self release_id t (Ok tt)
      (found_line self (length its) :: evs ++
       [done_line; summary_line self (length its)]).

(** What follows the release-creation request, given its answer [t]. *)
Inductive release_trace (self : JiraReleaseCreator)
  : transport -> result unit -> list event -> Prop :=
| create_failed t e :
    response_value t = inl e ->
    release_trace self t (Abort (SysExit 1)) (failure_lines e)
| release_unreadable t release :
    response_value t = inr release ->
    py_get release "name" (JStr (release_name self)) = Abort AttributeError ->
    release_trace self t (Abort AttributeError) []
| release_without_id t release name release_id :
    response_value t = inr release ->
    py_get release "name" (JStr (release_name self)) = Ok name ->
    py_get release "id" JNull = Ok release_id ->
    py_truthy release_id = false ->
    release_trace self t (Abort (SysExit 1)) [created_line name; no_id_line]
| release_created t release name release_id t' r evs :
    response_value t = inr release ->
    py_get release "name" (JStr (release_name self)) = Ok name ->
    py_get release "id" JNull = Ok release_id ->
    py_truthy release_id = true ->
    tickets_trace self release_id t' r evs ->
    release_trace self t r
      (created_line name :: EvHttp (query_call self) t' :: evs).

(** The runs of the script, by what they print and exchange, for a clock
    showing [today]. *)
Inductive run_trace (self : JiraReleaseCreator) (today : datetime)
  : result unit -> list event -> Prop :=
| user_failed t e :
    response_value t = inl e ->
    run_trace self today (Abort (SysExit 1))
      (start_line :: EvHttp (user_call self) t :: failure_lines e)
| user_unreadable t current_user exc :
    response_value t = inr current_user ->
    release_data self today current_user = Abort (Uncaught exc) ->
    run_trace self today (Abort (Uncaught exc))
      [start_line; EvHttp (user_call self) t]
| user_identified t current_user data t' r evs :
    response_value t = inr current_user ->
    release_data self today current_user = Ok data ->
    release_trace self t' r evs ->
    run_trace self today r
      (start_line :: EvHttp (user_call self) t :: creating_line self ::
       EvHttp (create_call self data) t' :: evs).

(** What [_make_jira_request] does once the call is chosen. *)
Definition request_outcome {S : Type} (serve : S -> http_call -> transport * S)
  (c : http_call) (w : world S) : result json * world S * list event :=
  let (t, s') := serve (server w) c in
  match response_value t with
  | inr v => (Ok v, with_server s' w, [EvHttp c t])
  | inl e => (Abort (SysExit 1), with_server s' w, EvHttp c t :: failure_lines e)
  end.

(** ** Trackers and worlds to run the script on *)

(** A tracker that plays a script: one prepared answer per call, then
    connection errors. *)
Definition scripted (s : list transport) (c : http_call)
  : transport * list transport :=
  match s with
  | [] => (Raised "ConnectionError" None, [])
  | t :: rest => (t, rest)
  end.

Definition reply (code : Z) (v : json) : transport :=
  Responded {| status_code := code; text := "{...}"; json_body := Some v |}.

Definition no_content : transport :=
  Responded {| status_code := 204; text := ""; json_body := None |}.

Definition server_error : transport :=
  Responded {| status_code := 500; text := "Internal Server Error"; json_body := None |}.

Definition demo_world (script : list transport) : world (list transport) :=
  {| environ := [("JIRA_USERNAME", "jdoe@example.com"); ("JIRA_API_TOKEN", "secret")];
     clock := {| year := 2024; month := 3; day := 7 |};
     server := script |}.

Definition demo_self : JiraReleaseCreator :=
  {| release_name := "v1.2.3";
     project_name := "PROJ";
     ticket_status := "Ready for Release";
     jira_base_url := "https://your-jira-instance.atlassian.net";
     jira_username := Some "jdoe@example.com";
     jira_api_token := Some "secret" |}.

(** The reading of "the creation request sets the released flag to false
    and the target date to a user-supplied value": the date in the body is
    a function of what the user supplies, the command line and the
    environment. *)
Definition creation_body_from_user_input : Prop :=
  exists f : string -> string -> string -> list (string * string) -> json,
    forall (S : Type) (serve : S -> http_call -> transport * S)
           (release project status : string) (w : world S)
           url auth headers fields t,
      In (EvHttp (requests_post url auth headers (Some (JObj fields))) t)
         (snd (main serve release project status w)) ->
      lookup "released" fields = Some (JBool false) /\
      lookup "userReleaseDate" fields = Some (f release project status (environ w)).

(** The answers of the end-to-end scenario. *)
Definition scenario_user : json := JObj [("key", JStr "jdoe")].

Definition scenario_release : json :=
  JObj [("id", JStr "10050"); ("name", JStr "v1.2.3")].

Definition scenario_found : json :=
  JObj [("issues",
         JArr [JObj [("key", JStr "PROJ-1");
                     ("fields", JObj [("fixVersions", JArr [])])];
               JObj [("key", JStr "PROJ-2");
                     ("fields",
                      JObj [("fixVersions", JArr [JObj [("id", JStr "9000")]])])]])].

(** A tracker that answers as the scenario says, and accepts the updates. *)
Definition scenario_tracker {S : Type} (serve : S -> http_call -> transport * S)
  : Prop :=
  (forall s self, response_value (fst (serve s (user_call self))) = inr scenario_user) /\
  (forall s self data,
     response_value (fst (serve s (create_call self data))) = inr scenario_release) /\
  (forall s self, response_value (fst (serve s (query_call self))) = inr scenario_found) /\
  (forall s self issue_key ids,
     request_fails (fst (serve s (update_call self issue_key ids))) = false).

(** Such a tracker, without state. *)
Definition scenario_serve (s : unit) (c : http_call) : transport * unit :=
  (match c with
   | requests_get _ _ _ None => reply 200 scenario_user
   | requests_get _ _ _ (Some _) => reply 200 scenario_found
   | requests_post _ _ _ _ => reply 201 scenario_release
   | requests_put _ _ _ _ => no_content
   end, s).

Definition scenario_world : world unit :=
  {| environ := [("JIRA_USERNAME", "jdoe@example.com"); ("JIRA_API_TOKEN", "secret")];
     clock := {| year := 2024; month := 3; day := 7 |};
     server := tt |}.

(** The same world a day later. *)
Definition scenario_world_next_day : world unit :=
  {| environ := environ scenario_world;
     clock := {| year := 2024; month := 3; day := 8 |};
     server := tt |}.

(** A release without id, an empty result, a refused update, and a ticket
    that already has the release. *)
Definition script_no_id : list transport :=
  [reply 200 scenario_user; reply 201 (JObj [("name", JStr "v1.2.3")])].

Definition script_no_tickets : list transport :=
  [reply 200 scenario_user; reply 201 scenario_release;
   reply 200 (JObj [("issues", JArr [])])].

Definition script_refused_update : list transport :=
  [reply 200 scenario_user; reply 201 scenario_release; reply 200 scenario_found;
   server_error; no_content].

Definition script_one_skipped : list transport :=
  [reply 200 scenario_user; reply 201 scenario_release;
   reply 200 (JObj [("issues",
                     JArr [JObj [("key", JStr "PROJ-1")];
                           JObj [("key", JStr "PROJ-2");
                                 ("fields",
                                  JObj [("fixVersions",
                                         JArr [JObj [("id", JStr "10050")]])])]])]);
   no_content].

Definition demo_release_data : list (string * json) :=
  [("name", JStr "v1.2.3"); ("project", JStr "PROJ"); ("released", JBool false);
   ("userReleaseDate", JStr "2024-03-07"); ("projectId", JNull);
   ("owner", JStr "jdoe")].

Definition ticket (issue_key : string) (version_ids : list string) : json :=
  JObj [("key", JStr issue_key);
        ("fields",
         JObj [("summary", JStr "a ticket");
               ("fixVersions", JArr (map (fun v => JObj [("id", JStr v)]) version_ids))])].

(** ** More readers of calls, events and values *)

Definition call_url (c : http_call) : fstring :=
  match c with
  | requests_get url _ _ _ => url
  | requests_post url _ _ _ => url
  | requests_put url _ _ _ => url
  end.

Definition call_auth (c : http_call) : credentials :=
  match c with
  | requests_get _ auth _ _ => auth
  | requests_post _ auth _ _ => auth
  | requests_put _ auth _ _ => auth
  end.

Definition call_headers (c : http_call) : list (string * string) :=
  match c with
  | requests_get _ _ headers _ => headers
  | requests_post _ _ headers _ => headers
  | requests_put _ _ headers _ => headers
  end.

(** The exchange goes to a resource under the base URL of [self], with its
    credentials and the JSON content type. *)
Definition addressed_by (self : JiraReleaseCreator) (ev : event) : Prop :=
  match ev with
  | EvPrint _ => True
  | EvHttp c _ =>
      call_auth c = auth_of self /\
      call_headers c = json_headers /\
      exists path, call_url c = Fmt (JStr (jira_base_url self)) :: path
  end.

(** Lines 63-68 of [_make_jira_request]: the call a method stands for. *)
Definition call_of (self : JiraReleaseCreator) (url : fstring) (method : string)
  (params data : option json) : option http_call :=
  let m := upper method in
  if String.eqb m "GET" then
    Some (requests_get url (auth_of self) json_headers params)
  else if String.eqb m "POST" then
    Some (requests_post url (auth_of self) json_headers data)
  else if String.eqb m "PUT" then
    Some (requests_put url (auth_of self) json_headers data)
  else None.

(** The owner the creation request names for a current-user answer. *)
Definition owner_of (current_user : json) : option json :=
  match current_user with
  | JObj kvs => lookup "key" kvs
  | _ => None
  end.

(** The ticket an event of the loop is about: the key in the address of an
    update, or in the line of a skipped ticket. *)
Definition event_ticket_key (ev : event) : list json :=
  match ev with
  | EvHttp (requests_put [_; _; Fmt issue_key] _ _ _) _ => [issue_key]
  | EvPrint [Lit a; Fmt issue_key; Lit b] =>
      if String.eqb a "Issue " && String.eqb b " already has the fixVersion"
      then [issue_key] else []
  | _ => []
  end.

Definition ticket_keys (evs : list event) : list json :=
  flat_map event_ticket_key evs.

Fixpoint distinct (ks : list string) : bool :=
  match ks with
  | [] => true
  | k :: rest => negb (existsb (String.eqb k) rest) && distinct rest
  end.

(** The dicts inside the value have pairwise distinct keys, as Python dicts
    do. *)
Fixpoint distinct_keys (v : json) : bool :=
  match v with
  | JArr xs => forallb distinct_keys xs
  | JObj kvs =>
      distinct (map fst kvs) && forallb (fun kv => distinct_keys (snd kv)) kvs
  | _ => true
  end.

(** The creator [__init__] builds from the command line and the
    environment. *)
Definition creator_of (environ : list (string * string))
  (release project status : string) : JiraReleaseCreator :=
  {| release_name := release;
     project_name := project;
     ticket_status := status;
     jira_base_url :=
       match lookup "JIRA_BASE_URL" environ with
       | Some b => b
       | None => "https://your-jira-instance.atlassian.net"
       end;
     jira_username := lookup "JIRA_USERNAME" environ;
     jira_api_token := lookup "JIRA_API_TOKEN" environ |}.

(** A request that failed, whatever it was for. *)
Definition failed_request (ev : event) : bool :=
  match ev with
  | EvHttp _ t => request_fails t
  | EvPrint _ => false
  end.

(** Wherever a failed request occurs in [evs], the process ended by
    [sys.exit(1)] and only console lines follow it. *)
Definition ends_at_failed_request (r : result unit) (evs : list event) : Prop :=
  forall pre ev post,
    evs = pre ++ ev :: post ->
    failed_request ev = true ->
    r = Abort (SysExit 1) /\ Forall (fun ev' => is_http ev' = false) post.

Definition too_many_redirects : transport :=
  Raised "Exceeded 30 redirects."
    (Some {| status_code := 302; text := "Found"; json_body := None |}).

Definition script_falsy_id : list transport :=
  [reply 200 scenario_user; reply 201 (JObj [("id", JStr ""); ("name", JStr "v1.2.3")])].

(** ** The model at work *)

Example py_eq_of_dicts :
  py_eq (JObj [("id", JStr "9000"); ("archived", JBool true)])
        (JObj [("archived", JInt 1); ("id", JStr "9000")]) = true.
Proof. reflexivity. Qed.

Example py_in_of_ids :
  py_in (JStr "10050") [JStr "9000"; JStr "10050"] = true /\
  py_in (JStr "10050") [JStr "9000"; JInt 10050] = false.
Proof. split; reflexivity. Qed.

Example strftime_pads : strftime_ymd {| year := 2024; month := 3; day := 7 |} = "2024-03-07".
Proof. reflexivity. Qed.

Example fix_version_ids_of_ticket :
  current_fix_version_ids (ticket "PROJ-2" ["9000"; "9001"]) =
  Ok [JStr "9000"; JStr "9001"] /\
  current_fix_version_ids (JObj [("key", JStr "PROJ-3"); ("fields", JNull)]) =
  Abort AttributeError /\
  current_fix_version_ids
    (JObj [("key", JStr "PROJ-4");
           ("fields", JObj [("fixVersions", JArr [JObj [("name", JStr "v1")]])])]) =
  Abort KeyError.
Proof. repeat split; reflexivity. Qed.

Example scenario_console :
  console (snd (main scenario_serve "v1.2.3" "PROJ" "Ready for Release" scenario_world)) =
  [Some "Starting JIRA Release Creator";
   Some "Creating release 'v1.2.3' in project 'PROJ'...";
   Some "Release created successfully: v1.2.3";
   Some "Found 2 issues with status 'Ready for Release' in project 'PROJ'";
   Some "Added fixVersion to issue PROJ-1";
   Some "Added fixVersion to issue PROJ-2";
   Some "JIRA Release Creator completed successfully!";
   Some "Created release 'v1.2.3' and added it as a fixVersion to 2 issues"].
Proof. vm_compute. reflexivity. Qed.

Example refused_update_console :
  fst (fst (run scripted demo_self (demo_world script_refused_update))) =
    Abort (SysExit 1) /\
  filter is_http (snd (run scripted demo_self (demo_world script_refused_update))) =
  [EvHttp (user_call demo_self) (reply 200 scenario_user);
   EvHttp (create_call demo_self demo_release_data) (reply 201 scenario_release);
   EvHttp (query_call demo_self) (reply 200 scenario_found);
   EvHttp (update_call demo_self (JStr "PROJ-1") [JStr "10050"]) server_error].
Proof. split; vm_compute; reflexivity. Qed.

(** ** Exceptions of the operations on values *)

Lemma py_get_abort v k d e : py_get v k d = Abort e -> e = AttributeError.
Proof. destruct v; simpl; congruence. Qed.

Lemma py_getitem_abort v k e :
  py_getitem v k = Abort e -> exists exc, e = Uncaught exc.
Proof.
  destruct v; simpl; try (intros [= <-]; eexists; reflexivity).
  destruct (lookup k items); intros [= <-]. eexists; reflexivity.
Qed.

Lemma py_iter_abort v e : py_iter v = Abort e -> e = TypeError.
Proof. destruct v; simpl; congruence. Qed.

Lemma py_len_abort v e : py_len v = Abort e -> e = TypeError.
Proof. destruct v; simpl; congruence. Qed.

Lemma py_contains_str_abort k v e : py_contains_str k v = Abort e -> e = TypeError.
Proof. destruct v; simpl; congruence. Qed.

Lemma map_result_abort (A B : Type) (f : A -> result B) xs e :
  (forall x e', f x = Abort e' -> exists exc, e' = Uncaught exc) ->
  map_result f xs = Abort e -> exists exc, e = Uncaught exc.
Proof.
  intros Hf. induction xs as [|x xs IH]; simpl; [discriminate|].
  destruct (f x) as [y|e'] eqn:Hx.
  - destruct (map_result f xs); [discriminate|].
    intros [= <-]. apply IH. reflexivity.
  - intros [= <-]. eapply Hf. eassumption.
Qed.

Lemma current_fix_version_ids_abort issue e :
  current_fix_version_ids issue = Abort e -> exists exc, e = Uncaught exc.
Proof.
  unfold current_fix_version_ids.
  destruct (py_get issue "fields" (JObj [])) as [fields|e1] eqn:H1.
  - destruct (py_get fields "fixVersions" (JArr [])) as [vs|e2] eqn:H2.
    + destruct (py_iter vs) as [l|e3] eqn:H3.
      * apply map_result_abort. intros x e'. apply py_getitem_abort.
      * intros [= <-]. apply py_iter_abort in H3. subst. eexists; reflexivity.
    + intros [= <-]. apply py_get_abort in H2. subst. eexists; reflexivity.
  - intros [= <-]. apply py_get_abort in H1. subst. eexists; reflexivity.
Qed.

Lemma release_data_abort self today current_user e :
  release_data self today current_user = Abort e -> exists exc, e = Uncaught exc.
Proof.
  unfold release_data.
  destruct (py_truthy current_user); [|discriminate].
  destruct (py_contains_str "key" current_user) as [[|]|e1] eqn:H1.
  - destruct (py_getitem current_user "key") as [owner|e2] eqn:H2; [discriminate|].
    intros [= <-]. eapply py_getitem_abort. eassumption.
  - discriminate.
  - intros [= <-]. apply py_contains_str_abort in H1. subst. eexists; reflexivity.
Qed.

Lemma length_chars s : length (chars s) = String.length s.
Proof. induction s as [|c s IH]; simpl; congruence. Qed.

(** What has a length can be iterated, over that many elements. *)
Lemma py_iter_of_len v n :
  py_len v = Ok n -> exists xs, py_iter v = Ok xs /\ length xs = n.
Proof.
  destruct v; simpl; try discriminate; intros [= <-]; eexists; split;
    try reflexivity.
  - apply length_chars.
  - apply length_map.
Qed.

(** ** Symbolic execution of the requests *)

Section Properties.

Context {S : Type}.
Variable serve : S -> http_call -> transport * S.

Lemma request_failed_eq (A : Type) (e : request_exception) (w : world S) :
  @request_failed S A e w = (Abort (SysExit 1), w, failure_lines e).
Proof.
  unfold request_failed, failure_lines, bind, print, sys_exit, ret.
  destruct (exc_response e) as [r|]; [destruct (ok r)|]; reflexivity.
Qed.

Lemma outcome_of_http (c : http_call) (w : world S) :
  bind (http serve c)
    (fun t => match response_value t with
              | inr v => ret v
              | inl e => request_failed e
              end) w = request_outcome serve c w.
Proof.
  unfold bind, http, request_outcome.
  destruct (serve (server w) c) as [t s'].
  destruct (response_value t) as [e|v].
  - rewrite request_failed_eq. reflexivity.
  - reflexivity.
Qed.

Lemma make_request_get self url params data (w : world S) :
  _make_jira_request serve self url "GET" params data w =
  request_outcome serve (requests_get url (auth_of self) json_headers params) w.
Proof. apply outcome_of_http. Qed.

Lemma make_request_post self url params data (w : world S) :
  _make_jira_request serve self url "POST" params data w =
  request_outcome serve (requests_post url (auth_of self) json_headers data) w.
Proof. apply outcome_of_http. Qed.

Lemma make_request_put self url params data (w : world S) :
  _make_jira_request serve self url "PUT" params data w =
  request_outcome serve (requests_put url (auth_of self) json_headers data) w.
Proof. apply outcome_of_http. Qed.

(** ** The three steps before the loop *)

Lemma create_release_eq self (w : world S) :
  create_release serve self w =
  let (t1, s1) := serve (server w) (user_call self) in
  match response_value t1 with
  | inl e1 =>
      (Abort (SysExit 1), with_server s1 w,
       EvHttp (user_call self) t1 :: failure_lines e1)
  | inr current_user =>
      match release_data self (clock w) current_user with
      | Abort e => (Abort e, with_server s1 w, [EvHttp (user_call self) t1])
      | Ok data =>
          let (t2, s2) := serve s1 (create_call self data) in
          match response_value t2 with
          | inl e2 =>
              (Abort (SysExit 1), with_server s2 w,
               EvHttp (user_call self) t1 :: creating_line self ::
               EvHttp (create_call self data) t2 :: failure_lines e2)
          | inr response =>
              match py_get response "name" (JStr (release_name self)) with
              | Abort e =>
                  (Abort e, with_server s2 w,
                   [EvHttp (user_call self) t1; creating_line self;
                    EvHttp (create_call self data) t2])
              | Ok name =>
                  (Ok response, with_server s2 w,
                   [EvHttp (user_call self) t1; creating_line self;
                    EvHttp (create_call self data) t2; created_line name])
              end
          end
      end
  end.
Proof.
  unfold create_release, get_current_user.
  unfold bind at 1. rewrite make_request_get. unfold request_outcome.
  fold (user_call self).
  destruct (serve (server w) (user_call self)) as [t1 s1].
  destruct (response_value t1) as [e1|current_user]; [reflexivity|].
  unfold bind at 1, datetime_now. unfold bind at 1, lift. simpl clock.
  destruct (release_data self (clock w) current_user) as [data|e]; [|reflexivity].
  unfold bind at 1, print. unfold bind at 1.
  rewrite make_request_post. unfold request_outcome. fold (create_call self data).
  simpl server.
  destruct (serve s1 (create_call self data)) as [t2 s2].
  destruct (response_value t2) as [e2|response]; [reflexivity|].
  unfold bind at 1.
  destruct (py_get response "name" (JStr (release_name self))) as [name|e];
    reflexivity.
Qed.

Lemma get_tickets_with_status_eq self (w : world S) :
  get_tickets_with_status serve self w =
  let (t, s') := serve (server w) (query_call self) in
  match response_value t with
  | inl e =>
      (Abort (SysExit 1), with_server s' w,
       EvHttp (query_call self) t :: failure_lines e)
  | inr response =>
      match py_get response "issues" (JArr []) with
      | Abort e => (Abort e, with_server s' w, [EvHttp (query_call self) t])
      | Ok issues =>
          match py_len issues with
          | Abort e => (Abort e, with_server s' w, [EvHttp (query_call self) t])
          | Ok n =>
              (Ok issues, with_server s' w,
               [EvHttp (query_call self) t; found_line self n])
          end
      end
  end.
Proof.
  unfold get_tickets_with_status.
  unfold bind at 1. rewrite make_request_get. unfold request_outcome.
  fold (query_call self).
  destruct (serve (server w) (query_call self)) as [t s'].
  destruct (response_value t) as [e|response]; [reflexivity|].
  unfold bind at 1, lift.
  destruct (py_get response "issues" (JArr [])) as [issues|e]; [|reflexivity].
  unfold bind at 1.
  destruct (py_len issues) as [n|e]; reflexivity.
Qed.

Lemma run_eq self (w : world S) :
  run serve self w =
  match create_release serve self w with
  | (Abort e, w1, evs1) => (Abort e, w1, start_line :: evs1)
  | (Ok release, w1, evs1) =>
      match py_get release "id" JNull with
      | Abort e => (Abort e, w1, start_line :: evs1)
      | Ok release_id =>
          if py_truthy release_id then
            match get_tickets_with_status serve self w1 with
            | (Abort e, w2, evs2) => (Abort e, w2, start_line :: evs1 ++ evs2)
            | (Ok issues, w2, evs2) =>
                match add_fix_version_to_tickets serve self release_id issues w2 with
                | (Abort e, w3, evs3) =>
                    (Abort e, w3, start_line :: evs1 ++ evs2 ++ evs3)
                | (Ok _, w3, evs3) =>
                    match py_len issues with
                    | Abort e =>
                        (Abort e, w3, start_line :: evs1 ++ evs2 ++ evs3 ++ [done_line])
                    | Ok n =>
                        (Ok tt, w3,
                         start_line :: evs1 ++ evs2 ++ evs3 ++
                         [done_line; summary_line self n])
                    end
                end
            end
          else (Abort (SysExit 1), w1, start_line :: evs1 ++ [no_id_line])
      end
  end.
Proof.
  unfold run, bind, print, lift, sys_exit, ret.
  destruct (create_release serve self w) as [[[release|e] w1] evs1]; [|reflexivity].
  destruct (py_get release "id" JNull) as [release_id|e];
    [|rewrite app_nil_r; reflexivity].
  destruct (py_truthy release_id); cbn [negb].
  - destruct (get_tickets_with_status serve self w1) as [[[issues|e] w2] evs2];
      [|reflexivity].
    destruct (add_fix_version_to_tickets serve self release_id issues w2)
      as [[[[]|e] w3] evs3]; [|reflexivity].
    destruct (py_len issues) as [n|e]; reflexivity.
  - rewrite app_nil_r. reflexivity.
Qed.

(** ** One ticket *)

Lemma ticket_step self release_id issue (w : world S) :
  add_fix_version_to_ticket serve self release_id issue w =
  match py_getitem issue "key" with
  | Abort e => (Abort e, w, [])
  | Ok issue_key =>
      match current_fix_version_ids issue with
      | Abort e => (Abort e, w, [])
      | Ok ids =>
          if py_in release_id ids then (Ok tt, w, [already_line issue_key])
          else
            let c := update_call self issue_key (ids ++ [release_id]) in
            let (t, s') := serve (server w) c in
            match response_value t with
            | inr _ => (Ok tt, with_server s' w, [EvHttp c t; added_line issue_key])
            | inl e => (Abort (SysExit 1), with_server s' w, EvHttp c t :: failure_lines e)
            end
      end
  end.
Proof.
  unfold add_fix_version_to_ticket, bind at 1, lift.
  destruct (py_getitem issue "key") as [issue_key|e]; [|reflexivity].
  unfold bind at 1.
  destruct (current_fix_version_ids issue) as [ids|e]; [|reflexivity].
  destruct (py_in release_id ids); simpl; [reflexivity|].
  unfold bind at 1. rewrite make_request_put.
  unfold request_outcome, update_call, issue_url.
  destruct (serve (server w) _) as [t s'].
  destruct (response_value t) as [e|v]; reflexivity.
Qed.

(** ** The loop *)

Lemma for_each_app (A : Type) (body : A -> M S unit) (xs ys : list A) (w : world S) :
  for_each body (xs ++ ys) w =
  match for_each body xs w with
  | (Ok _, w1, evs1) =>
      let '(r, w2, evs2) := for_each body ys w1 in (r, w2, evs1 ++ evs2)
  | (Abort e, w1, evs1) => (Abort e, w1, evs1)
  end.
Proof.
  revert w. induction xs as [|x xs IH]; intros w; simpl.
  - destruct (for_each body ys w) as [[r w2] evs2]. reflexivity.
  - unfold bind. destruct (body x w) as [[[[]|e] w1] evs1]; [|reflexivity].
    rewrite IH.
    destruct (for_each body xs w1) as [[[[]|e] w2] evs2].
    + destruct (for_each body ys w2) as [[r w3] evs3].
      rewrite app_assoc. reflexivity.
    + reflexivity.
Qed.

Lemma tickets_of_list self release_id (issues : list json) (w : world S) :
  add_fix_version_to_tickets serve self release_id (JArr issues) w =
  for_each (add_fix_version_to_ticket serve self release_id) issues w.
Proof.
  unfold add_fix_version_to_tickets, bind, lift. simpl.
  destruct (for_each _ issues w) as [[r w'] evs]. reflexivity.
Qed.

(** The loop reaches a ticket when the tickets before it went through;
    from there on the run is the ticket's step followed by the rest. *)
Lemma tickets_reach self release_id pre issue post (w w1 : world S) evs1 :
  add_fix_version_to_tickets serve self release_id (JArr pre) w = (Ok tt, w1, evs1) ->
  add_fix_version_to_tickets serve self release_id (JArr (pre ++ issue :: post)) w =
  match add_fix_version_to_ticket serve self release_id issue w1 with
  | (Ok _, w2, evs2) =>
      let '(r, w3, evs3) :=
        add_fix_version_to_tickets serve self release_id (JArr post) w2 in
      (r, w3, evs1 ++ evs2 ++ evs3)
  | (Abort e, w2, evs2) => (Abort e, w2, evs1 ++ evs2)
  end.
Proof.
  rewrite !tickets_of_list. intros Hpre.
  rewrite for_each_app, Hpre. simpl. unfold bind.
  destruct (add_fix_version_to_ticket serve self release_id issue w1)
    as [[[[]|e] w2] evs2]; [|reflexivity].
  rewrite tickets_of_list.
  destruct (for_each _ post w2) as [[r w3] evs3]. reflexivity.
Qed.

Lemma for_each_trace self release_id issues (w w' : world S) r evs :
  for_each (add_fix_version_to_ticket serve self release_id) issues w = (r, w', evs) ->
  loop_trace self release_id issues r evs.
Proof.
  revert w w' r evs.
  induction issues as [|issue rest IH]; intros w w' r evs; simpl.
  - intros [= <- <- <-]. constructor.
  - unfold bind. rewrite ticket_step.
    destruct (py_getitem issue "key") as [issue_key|e] eqn:Hkey.
    2:{ intros [= <- <- <-].
        destruct (py_getitem_abort _ _ _ Hkey) as [exc ->]. constructor. auto. }
    destruct (current_fix_version_ids issue) as [ids|e] eqn:Hids.
    2:{ intros [= <- <- <-].
        destruct (current_fix_version_ids_abort _ _ Hids) as [exc ->].
        constructor. auto. }
    destruct (py_in release_id ids) eqn:Hin.
    + destruct (for_each _ rest w) as [[r1 w1] evs1] eqn:Hrest.
      intros [= <- <- <-]. simpl. econstructor; [eassumption..|].
      eapply IH. eassumption.
    + cbv zeta.
      destruct (serve (server w) _) as [t s'].
      destruct (response_value t) as [e|v] eqn:Hv.
      * intros [= <- <- <-]. econstructor; eassumption.
      * destruct (for_each _ rest (with_server s' w)) as [[r1 w1] evs1] eqn:Hrest.
        intros [= <- <- <-]. simpl. econstructor; [eassumption..|].
        eapply IH. eassumption.
Qed.

Lemma failure_lines_prints e : Forall (fun ev => is_http ev = false) (failure_lines e).
Proof.
  unfold failure_lines. constructor; [reflexivity|].
  destruct (exc_response e) as [r|]; [destruct (ok r)|]; repeat constructor.
Qed.

(** The loop only prints and sends ticket updates. *)
Lemma loop_trace_kinds self release_id issues r evs :
  loop_trace self release_id issues r evs ->
  Forall (fun ev => is_creation ev = false /\ is_query ev = false) evs.
Proof.
  induction 1.
  - constructor.
  - constructor.
  - constructor; [split; reflexivity|assumption].
  - constructor; [split; reflexivity|].
    constructor; [split; reflexivity|assumption].
  - constructor; [split; reflexivity|].
    eapply Forall_impl; [|apply failure_lines_prints].
    intros [line|c t']; simpl; [auto|discriminate].
Qed.

Lemma loop_trace_exit self release_id issues e evs :
  loop_trace self release_id issues (Abort e) evs -> exit_code e = 1%Z.
Proof.
  remember (Abort e) as r eqn:Hr. induction 1; try discriminate; auto.
  - injection Hr as <-. reflexivity.
  - injection Hr as <-. reflexivity.
Qed.

(** When the loop goes through, every ticket was either updated or skipped. *)
Lemma loop_trace_counts self release_id issues evs :
  loop_trace self release_id issues (Ok tt) evs ->
  count is_update evs + count is_already_line evs = length issues.
Proof.
  remember (Ok tt) as r eqn:Hr. induction 1; try discriminate; simpl.
  - reflexivity.
  - rewrite <- (IHloop_trace Hr). lia.
  - rewrite <- (IHloop_trace Hr). lia.
Qed.

(** Nothing follows a failed update but the lines of the error. *)
Lemma loop_trace_failed_update self release_id issues r evs pre c t post e :
  loop_trace self release_id issues r evs ->
  evs = pre ++ EvHttp c t :: post ->
  response_value t = inl e ->
  r = Abort (SysExit 1) /\ post = failure_lines e.
Proof.
  intros Hloop. revert pre.
  induction Hloop as [ | | issue rest issue_key ids r evs _ _ _ Hloop IH
                     | issue rest issue_key ids t' v r evs _ _ _ Hv Hloop IH
                     | issue rest issue_key ids t' e' _ _ _ He' ];
    intros pre Hsplit Hfail.
  - destruct pre; discriminate.
  - destruct pre; discriminate.
  - destruct pre as [|ev pre]; [discriminate|].
    injection Hsplit as _ Hsplit. eapply IH; eassumption.
  - destruct pre as [|ev pre].
    + injection Hsplit as _ <- _. congruence.
    + injection Hsplit as _ Hsplit.
      destruct pre as [|ev' pre]; [discriminate|].
      injection Hsplit as _ Hsplit. eapply IH; eassumption.
  - destruct pre as [|ev pre].
    + injection Hsplit as _ <- <-. split; [reflexivity|]. congruence.
    + injection Hsplit as _ Hsplit. exfalso.
      pose proof (failure_lines_prints e') as Hprints.
      rewrite Hsplit in Hprints. apply Forall_elt in Hprints. discriminate.
Qed.

(** ** The whole run *)

Lemma tickets_have_trace self release_id (w w3 : world S) t s' r evs3 :
  serve (server w) (query_call self) = (t, s') ->
  match get_tickets_with_status serve self w with
  | (Abort e, w2, evs2) => (Abort e, w2, evs2)
  | (Ok issues, w2, evs2) =>
      match add_fix_version_to_tickets serve self release_id issues w2 with
      | (Abort e, w3, evs3) => (Abort e, w3, evs2 ++ evs3)
      | (Ok _, w3, evs3) =>
          match py_len issues with
          | Abort e => (Abort e, w3, evs2 ++ evs3 ++ [done_line])
          | Ok n => (Ok tt, w3, evs2 ++ evs3 ++ [done_line; summary_line self n])
          end
      end
  end = (r, w3, evs3) ->
  exists evs, evs3 = EvHttp (query_call self) t :: evs /\
              tickets_trace self release_id t r evs.
Proof.
  intros Hserve. rewrite get_tickets_with_status_eq, Hserve.
  destruct (response_value t) as [e|found] eqn:Ht.
  { intros [= <- <- <-]. eexists; split; [reflexivity|]. constructor. assumption. }
  destruct (py_get found "issues" (JArr [])) as [issues|e] eqn:Hissues.
  2:{ intros [= <- <- <-]. eexists; split; [reflexivity|].
      pose proof (py_get_abort _ _ _ _ Hissues) as ->.
      econstructor; [eassumption|]. left. assumption. }
  destruct (py_len issues) as [n|e] eqn:Hlen.
  2:{ intros [= <- <- <-]. eexists; split; [reflexivity|].
      pose proof (py_len_abort _ _ Hlen) as ->.
      econstructor; [eassumption|]. right. eauto. }
  destruct (py_iter_of_len _ _ Hlen) as (its & Hiter & <-).
  unfold add_fix_version_to_tickets, bind, lift. rewrite Hiter.
  destruct (for_each _ its (with_server s' w)) as [[[[]|e] w4] evs4] eqn:Hloop;
    apply for_each_trace in Hloop; rewrite ?Hlen;
    intros [= <- <- <-]; eexists; (split; [reflexivity|]);
    econstructor; eassumption.
Qed.

Lemma run_has_trace self (w w' : world S) r evs :
  run serve self w = (r, w', evs) -> run_trace self (clock w) r evs.
Proof.
  rewrite run_eq, create_release_eq.
  destruct (serve (server w) (user_call self)) as [t1 s1].
  destruct (response_value t1) as [e1|current_user] eqn:Ht1.
  { intros [= <- <- <-]. constructor. assumption. }
  destruct (release_data self (clock w) current_user) as [data|e] eqn:Hdata.
  2:{ intros [= <- <- <-].
      destruct (release_data_abort _ _ _ _ Hdata) as [exc ->].
      econstructor; eassumption. }
  destruct (serve s1 (create_call self data)) as [t2 s2].
  destruct (response_value t2) as [e2|release] eqn:Ht2.
  { intros [= <- <- <-]. econstructor; [eassumption..|].
    constructor. assumption. }
  destruct (py_get release "name" (JStr (release_name self))) as [name|e] eqn:Hname.
  2:{ intros [= <- <- <-]. pose proof (py_get_abort _ _ _ _ Hname) as ->.
      econstructor; [eassumption..|]. econstructor; eassumption. }
  destruct (py_get release "id" JNull) as [release_id|e] eqn:Hid.
  2:{ destruct release; discriminate. }
  destruct (py_truthy release_id) eqn:Htruthy.
  2:{ intros [= <- <- <-]. econstructor; [eassumption..|].
      econstructor; eassumption. }
  destruct (serve (server (with_server s2 w)) (query_call self)) as [t3 s3] eqn:Ht3.
  intros Hrun.
  destruct (tickets_have_trace self release_id (with_server s2 w) w' t3 s3 r
              (skipn 5 evs) Ht3) as (evs3 & Hevs & Htickets).
  { destruct (get_tickets_with_status serve self (with_server s2 w))
      as [[[issues|e] w2] evs2].
    - destruct (add_fix_version_to_tickets serve self release_id issues w2)
        as [[[[]|e] w3] evs3].
      + destruct (py_len issues); injection Hrun as <- <- <-; reflexivity.
      + injection Hrun as <- <- <-. reflexivity.
    - injection Hrun as <- <- <-. reflexivity. }
  assert (Hsplit : evs = firstn 5 evs ++ skipn 5 evs)
    by (symmetry; apply firstn_skipn).
  assert (Hhead : firstn 5 evs =
                  [start_line; EvHttp (user_call self) t1; creating_line self;
                   EvHttp (create_call self data) t2; created_line name]).
  { destruct (get_tickets_with_status serve self (with_server s2 w))
      as [[[issues|e] w2] evs2].
    - destruct (add_fix_version_to_tickets serve self release_id issues w2)
        as [[[[]|e] w3] evs4].
      + destruct (py_len issues); injection Hrun as <- <- <-; reflexivity.
      + injection Hrun as <- <- <-. reflexivity.
    - injection Hrun as <- <- <-. reflexivity. }
  rewrite Hsplit, Hhead, Hevs. simpl.
  econstructor; [eassumption..|]. econstructor; eassumption.
Qed.

Lemma data_version_ids_payload (ids : list json) :
  data_version_ids (fix_versions_data ids) = Ok ids.
Proof.
  unfold data_version_ids, fix_versions_data. simpl.
  induction ids as [|v ids IH]; simpl; [reflexivity|].
  rewrite IH. reflexivity.
Qed.

(** A ticket that lacks the release id gets the update right after the
    tickets before it. *)
Lemma tickets_update_step self release_id pre issue post (w w1 : world S) evs1
  issue_key ids :
  add_fix_version_to_tickets serve self release_id (JArr pre) w = (Ok tt, w1, evs1) ->
  py_getitem issue "key" = Ok issue_key ->
  current_fix_version_ids issue = Ok ids ->
  py_in release_id ids = false ->
  exists res w' later,
    add_fix_version_to_tickets serve self release_id (JArr (pre ++ issue :: post)) w =
    (res, w',
     evs1 ++
     EvHttp (update_call self issue_key (ids ++ [release_id]))
            (fst (serve (server w1) (update_call self issue_key (ids ++ [release_id]))))
     :: later).
Proof.
  intros Hpre Hkey Hids Hin.
  rewrite (tickets_reach _ _ _ _ _ _ _ _ Hpre), ticket_step, Hkey, Hids, Hin.
  cbv zeta.
  destruct (serve (server w1) _) as [t s'] eqn:Hserve. simpl fst.
  destruct (response_value t) as [e|v].
  - eauto.
  - destruct (add_fix_version_to_tickets serve self release_id (JArr post) _)
      as [[r w3] evs3].
    simpl. eauto.
Qed.

(** C1: a ticket whose version ids do not contain the release id gets an
    update whose version-id list is the ticket's list followed by the
    release id: the earlier entries in their order, the new id once, last. *)
Theorem absent_release_id_is_appended self release_id pre issue post
  (w w1 : world S) evs1 issue_key ids :
  add_fix_version_to_tickets serve self release_id (JArr pre) w = (Ok tt, w1, evs1) ->
  py_getitem issue "key" = Ok issue_key ->
  current_fix_version_ids issue = Ok ids ->
  py_in release_id ids = false ->
  exists res w' t later data,
    add_fix_version_to_tickets serve self release_id (JArr (pre ++ issue :: post)) w =
    (res, w',
     evs1 ++
     EvHttp (requests_put (issue_url self issue_key) (auth_of self) json_headers
               (Some data)) t
     :: later) /\
    t = fst (serve (server w1)
               (requests_put (issue_url self issue_key) (auth_of self) json_headers
                  (Some data))) /\
    data_version_ids data = Ok (ids ++ [release_id]).
Proof.
  intros Hpre Hkey Hids Hin.
  destruct (tickets_update_step self release_id pre issue post w w1 evs1
              issue_key ids Hpre Hkey Hids Hin) as (res & w' & later & Hrun).
  exists res, w', (fst (serve (server w1) (update_call self issue_key (ids ++ [release_id])))),
    later, (fix_versions_data (ids ++ [release_id])).
  split; [exact Hrun|]. split; [reflexivity|].
  apply data_version_ids_payload.
Qed.

(** C2: a ticket whose version ids contain the release id only gets the
    line saying so: no request is sent for it, and the tickets after it are
    processed from the very same tracker state. *)
Theorem present_release_id_is_skipped self release_id pre issue post
  (w w1 : world S) evs1 issue_key ids :
  add_fix_version_to_tickets serve self release_id (JArr pre) w = (Ok tt, w1, evs1) ->
  py_getitem issue "key" = Ok issue_key ->
  current_fix_version_ids issue = Ok ids ->
  py_in release_id ids = true ->
  add_fix_version_to_ticket serve self release_id issue w1 =
    (Ok tt, w1, [EvPrint [Lit "Issue "; Fmt issue_key; Lit " already has the fixVersion"]]) /\
  forall res w2 evs2,
    add_fix_version_to_tickets serve self release_id (JArr post) w1 = (res, w2, evs2) ->
    add_fix_version_to_tickets serve self release_id (JArr (pre ++ issue :: post)) w =
    (res, w2,
     evs1 ++ EvPrint [Lit "Issue "; Fmt issue_key; Lit " already has the fixVersion"]
          :: evs2).
Proof.
  intros Hpre Hkey Hids Hin.
  assert (Hstep : add_fix_version_to_ticket serve self release_id issue w1 =
                  (Ok tt, w1, [already_line issue_key])).
  { rewrite ticket_step, Hkey, Hids, Hin. reflexivity. }
  split; [exact Hstep|].
  intros res w2 evs2 Hpost.
  rewrite (tickets_reach _ _ _ _ _ _ _ _ Hpre), Hstep, Hpost. reflexivity.
Qed.

(** C10: an issue without a 'fields' entry, or whose fields have no
    'fixVersions' entry, has no version ids for the script, and gets an
    update whose fixVersions list is the release id alone. *)
Theorem missing_fix_versions_is_empty self release_id pre items post
  (w w1 : world S) evs1 issue_key :
  add_fix_version_to_tickets serve self release_id (JArr pre) w = (Ok tt, w1, evs1) ->
  lookup "key" items = Some issue_key ->
  (lookup "fields" items = None \/
   exists fields, lookup "fields" items = Some (JObj fields) /\
                  lookup "fixVersions" fields = None) ->
  current_fix_version_ids (JObj items) = Ok [] /\
  exists res w' t later,
    add_fix_version_to_tickets serve self release_id (JArr (pre ++ JObj items :: post)) w =
    (res, w',
     evs1 ++
     EvHttp (requests_put (issue_url self issue_key) (auth_of self) json_headers
               (Some (JObj [("fields",
                             JObj [("fixVersions", JArr [JObj [("id", release_id)]])])])))
            t
     :: later).
Proof.
  intros Hpre Hkey Hfields.
  assert (Hids : current_fix_version_ids (JObj items) = Ok []).
  { unfold current_fix_version_ids. simpl.
    destruct Hfields as [Hnone | (fields & Hsome & Hfix)].
    - rewrite Hnone. reflexivity.
    - rewrite Hsome. simpl. rewrite Hfix. reflexivity. }
  split; [exact Hids|].
  assert (Hitem : py_getitem (JObj items) "key" = Ok issue_key).
  { simpl. rewrite Hkey. reflexivity. }
  destruct (tickets_update_step self release_id pre (JObj items) post w w1 evs1
              issue_key [] Hpre Hitem Hids eq_refl) as (res & w' & later & Hrun).
  exists res, w', (fst (serve (server w1) (update_call self issue_key ([] ++ [release_id])))),
    later.
  exact Hrun.
Qed.

Lemma failure_lines_kinds e :
  Forall (fun ev => is_creation ev = false /\ is_query ev = false /\
                    is_update ev = false) (failure_lines e).
Proof.
  eapply Forall_impl; [|apply failure_lines_prints].
  intros [line|c t]; simpl; [auto|discriminate].
Qed.

(** After the query was sent, the script creates no release and sends no
    further query. *)
Lemma tickets_trace_kinds self release_id t r evs :
  tickets_trace self release_id t r evs ->
  Forall (fun ev => is_creation ev = false /\ is_query ev = false) evs.
Proof.
  destruct 1.
  - eapply Forall_impl; [|apply failure_lines_kinds]. simpl. tauto.
  - constructor.
  - constructor; [split; reflexivity|].
    eapply loop_trace_kinds; eassumption.
  - constructor; [split; reflexivity|].
    apply Forall_app. split; [eapply loop_trace_kinds; eassumption|].
    repeat (constructor; [split; reflexivity|]). constructor.
Qed.

(** Every way the script stops early leaves the exit status 1. *)
Lemma tickets_trace_exit self release_id t e evs :
  tickets_trace self release_id t (Abort e) evs -> exit_code e = 1%Z.
Proof.
  inversion 1; subst; try reflexivity.
  eapply loop_trace_exit; eassumption.
Qed.

Lemma release_trace_exit self t e evs :
  release_trace self t (Abort e) evs -> exit_code e = 1%Z.
Proof.
  inversion 1; subst; try reflexivity.
  eapply tickets_trace_exit; eassumption.
Qed.

Lemma run_trace_exit self today e evs :
  run_trace self today (Abort e) evs -> exit_code e = 1%Z.
Proof.
  inversion 1; subst; try reflexivity.
  eapply release_trace_exit; eassumption.
Qed.

Lemma omits_id_falsy release release_id :
  omits_id release = true ->
  py_get release "id" JNull = Ok release_id ->
  py_truthy release_id = false.
Proof.
  destruct release; simpl; try discriminate.
  unfold has_key. destruct (lookup "id" items); [discriminate|].
  intros _ [= <-]. reflexivity.
Qed.

(** C3: when the answer to the release-creation request has no id field,
    the run ends with a nonzero exit status, and it has sent neither a
    ticket query nor a ticket update. *)
Theorem missing_release_id_aborts self (w w' : world S) res new ev release :
  run serve self w = (res, w', new) ->
  In ev new ->
  is_creation ev = true ->
  answer_value ev = Some release ->
  omits_id release = true ->
  (exists e, res = Abort e /\ exit_code e <> 0%Z) /\
  Forall (fun ev' => is_query ev' = false /\ is_update ev' = false) new.
Proof.
  intros Hrun Hin Hcreation Hanswer Homits.
  apply run_has_trace in Hrun.
  assert (Hexit : forall e, res = Abort e -> exit_code e <> 0%Z).
  { intros e ->. rewrite (run_trace_exit _ _ _ _ Hrun). discriminate. }
  assert (Hfail : forall e, Forall (fun ev' => is_query ev' = false /\ is_update ev' = false)
                                   (failure_lines e)).
  { intros e. eapply Forall_impl; [|apply (failure_lines_kinds e)]. simpl. tauto. }
  destruct Hrun as [t e Ht | t current_user exc Ht Hdata
                   | t current_user data t' r evs Ht Hdata Hrelease].
  - split; [eauto|]. repeat first [apply Hfail | constructor; [split; reflexivity|]].
  - split; [eauto|]. repeat first [apply Hfail | constructor; [split; reflexivity|] | constructor].
  - destruct Hrelease as [t' e Ht' | t' rel Ht' Hname
                         | t' rel name release_id Ht' Hname Hid Htruthy
                         | t' rel name release_id t3 r evs Ht' Hname Hid Htruthy Htickets].
    + split; [eauto|]. repeat first [apply Hfail | constructor; [split; reflexivity|]].
    + split; [eauto|]. repeat first [apply Hfail | constructor; [split; reflexivity|] | constructor].
    + split; [eauto|]. repeat first [apply Hfail | constructor; [split; reflexivity|] | constructor].
    + exfalso.
      assert (Hev : ev = EvHttp (create_call self data) t').
      { simpl in Hin.
        destruct Hin as [<-|[<-|[<-|[<-|[<-|[<-|Hin]]]]]]; try discriminate.
        - reflexivity.
        - apply tickets_trace_kinds in Htickets.
          rewrite Forall_forall in Htickets.
          destruct (Htickets _ Hin) as [Hc _]. congruence. }
      subst ev. simpl in Hanswer. rewrite Ht' in Hanswer.
      injection Hanswer as <-.
      rewrite (omits_id_falsy _ _ Homits Hid) in Htruthy. discriminate.
Qed.

Lemma release_data_fields self today current_user data :
  release_data self today current_user = Ok data ->
  lookup "released" data = Some (JBool false) /\
  lookup "userReleaseDate" data = Some (JStr (strftime_ymd today)).
Proof.
  unfold release_data.
  destruct (py_truthy current_user).
  - destruct (py_contains_str "key" current_user) as [[|]|e]; [| |discriminate].
    + destruct (py_getitem current_user "key") as [owner|e]; [|discriminate].
      intros [= <-]. split; reflexivity.
    + intros [= <-]. split; reflexivity.
  - intros [= <-]. split; reflexivity.
Qed.

(** After the release-creation request, no other one follows. *)
Lemma release_trace_no_creation self t r evs :
  release_trace self t r evs -> Forall (fun ev => is_creation ev = false) evs.
Proof.
  destruct 1.
  - eapply Forall_impl; [|apply failure_lines_kinds]. simpl. tauto.
  - constructor.
  - repeat constructor.
  - constructor; [reflexivity|]. constructor; [reflexivity|].
    eapply Forall_impl; [|eapply tickets_trace_kinds; eassumption].
    simpl. tauto.
Qed.

(** C6, as the script has it: the body of the release-creation request sets
    the released flag to false and the target date (userReleaseDate) to the
    date the clock of the machine shows, written year-month-day. *)
Theorem creation_body_released_and_date self (w w' : world S) res new
  url auth headers data t :
  run serve self w = (res, w', new) ->
  In (EvHttp (requests_post url auth headers data) t) new ->
  exists fields,
    data = Some (JObj fields) /\
    lookup "released" fields = Some (JBool false) /\
    lookup "userReleaseDate" fields = Some (JStr (strftime_ymd (clock w))).
Proof.
  intros Hrun Hin.
  apply run_has_trace in Hrun.
  assert (Hfail : forall e, ~ In (EvHttp (requests_post url auth headers data) t)
                              (failure_lines e)).
  { intros e Hin'. pose proof (failure_lines_prints e) as Hprints.
    rewrite Forall_forall in Hprints. apply Hprints in Hin'. discriminate. }
  destruct Hrun as [t1 e Ht | t1 current_user exc Ht Hdata
                   | t1 current_user data' t' r evs Ht Hdata Hrelease].
  - simpl in Hin. destruct Hin as [Hin|[Hin|Hin]]; try discriminate.
    elim (Hfail _ Hin).
  - simpl in Hin. destruct Hin as [Hin|[Hin|[]]]; discriminate.
  - simpl in Hin. destruct Hin as [Hin|[Hin|[Hin|[Hin|Hin]]]]; try discriminate.
    + injection Hin as _ _ _ <- _.
      exists data'. split; [reflexivity|].
      eapply release_data_fields. eassumption.
    + exfalso.
      pose proof (release_trace_no_creation _ _ _ _ Hrelease) as Hkinds.
      rewrite Forall_forall in Hkinds. apply Hkinds in Hin. discriminate.
Qed.

Lemma failure_lines_no_query e ev :
  In ev (failure_lines e) -> is_query ev = true -> False.
Proof.
  intros Hin Hq. pose proof (failure_lines_kinds e) as H.
  rewrite Forall_forall in H. destruct (H _ Hin) as (_ & Hq' & _). congruence.
Qed.

(** C7: when the ticket query returns an empty list, the run completes,
    sends no ticket update, and its last line reports 0 issues. *)
Theorem empty_query_completes self (w w' : world S) res new ev found :
  run serve self w = (res, w', new) ->
  In ev new ->
  is_query ev = true ->
  answer_value ev = Some found ->
  py_get found "issues" (JArr []) = Ok (JArr []) ->
  res = Ok tt /\
  Forall (fun ev' => is_update ev' = false) new /\
  exists before, new = before ++ [summary_line self 0].
Proof.
  intros Hrun Hin Hquery Hanswer Hissues.
  apply run_has_trace in Hrun.
  destruct Hrun as [t1 e Ht | t1 current_user exc Ht Hdata
                   | t1 current_user data t' r evs Ht Hdata Hrelease].
  { exfalso. cbn [In] in Hin. destruct Hin as [<-|[<-|Hin]]; try discriminate.
    eapply failure_lines_no_query; eassumption. }
  { exfalso. cbn [In] in Hin. destruct Hin as [<-|[<-|[]]]; discriminate. }
  destruct Hrelease as [t' e Ht' | t' rel Ht' Hname
                       | t' rel name release_id Ht' Hname Hid Htruthy
                       | t' rel name release_id t3 r evs Ht' Hname Hid Htruthy Htickets].
  { exfalso. cbn [In] in Hin.
    destruct Hin as [<-|[<-|[<-|[<-|Hin]]]]; try discriminate.
    eapply failure_lines_no_query; eassumption. }
  { exfalso. cbn [In] in Hin.
    destruct Hin as [<-|[<-|[<-|[<-|[]]]]]; discriminate. }
  { exfalso. cbn [In] in Hin.
    destruct Hin as [<-|[<-|[<-|[<-|[<-|[<-|[]]]]]]]; discriminate. }
  assert (Hev : ev = EvHttp (query_call self) t3).
  { cbn [In] in Hin.
    destruct Hin as [<-|[<-|[<-|[<-|[<-|[<-|Hin]]]]]]; try discriminate.
    - reflexivity.
    - apply tickets_trace_kinds in Htickets.
      rewrite Forall_forall in Htickets.
      destruct (Htickets _ Hin) as [_ Hq]. congruence. }
  subst ev. simpl in Hanswer.
  destruct Htickets as [t3 e Ht3 | t3 found' exc Ht3 Hbad
                       | t3 found' issues its e evs Ht3 Hget Hlen Hiter Hloop
                       | t3 found' issues its evs Ht3 Hget Hlen Hiter Hloop];
    rewrite Ht3 in Hanswer; try discriminate; injection Hanswer as ->.
  - exfalso. destruct Hbad as [Hbad | (issues & Hget & Hbad)].
    + congruence.
    + rewrite Hissues in Hget. injection Hget as <-. discriminate.
  - exfalso. rewrite Hissues in Hget. injection Hget as <-.
    injection Hiter as <-. inversion Hloop.
  - rewrite Hissues in Hget. injection Hget as <-.
    injection Hiter as <-. inversion Hloop; subst.
    split; [reflexivity|]. split.
    + repeat constructor.
    + eexists [_; _; _; _; _; _; _; _]. reflexivity.
Qed.

(** [stops_at_failed_update r evs]: wherever a failed ticket update occurs
    in [evs], the process ended by [sys.exit(1)] and only console lines
    follow. *)
Lemma stops_cons r ev evs :
  failed_update ev = false ->
  stops_at_failed_update r evs -> stops_at_failed_update r (ev :: evs).
Proof.
  intros Hev Hevs pre ev' post Hsplit Hfailed.
  destruct pre as [|ev0 pre].
  - injection Hsplit as <- _. congruence.
  - injection Hsplit as _ Hsplit. eapply Hevs; eassumption.
Qed.

Lemma stops_without_failure r evs :
  Forall (fun ev => failed_update ev = false) evs -> stops_at_failed_update r evs.
Proof.
  intros Hall pre ev post -> Hfailed.
  apply Forall_elt in Hall. congruence.
Qed.

Lemma failure_lines_not_failed e :
  Forall (fun ev => failed_update ev = false) (failure_lines e).
Proof.
  eapply Forall_impl; [|apply failure_lines_prints].
  intros [line|c t]; simpl; [auto|discriminate].
Qed.

Lemma loop_trace_stops self release_id issues r evs :
  loop_trace self release_id issues r evs -> stops_at_failed_update r evs.
Proof.
  intros Hloop pre ev post Hsplit Hfailed.
  destruct ev as [line|c t]; [discriminate|].
  destruct (response_value t) as [e|v] eqn:Ht.
  - destruct (loop_trace_failed_update _ _ _ _ _ _ _ _ _ _ Hloop Hsplit Ht)
      as [-> ->].
    split; [reflexivity|]. apply failure_lines_prints.
  - destruct c; simpl in Hfailed; try discriminate.
    unfold request_fails in Hfailed. rewrite Ht in Hfailed. discriminate.
Qed.

Lemma loop_trace_ok_no_failure self release_id issues evs :
  loop_trace self release_id issues (Ok tt) evs ->
  Forall (fun ev => failed_update ev = false) evs.
Proof.
  remember (Ok tt) as r eqn:Hr. induction 1; try discriminate.
  - constructor.
  - constructor; [reflexivity|auto].
  - constructor; [|constructor; [reflexivity|auto]].
    simpl. unfold request_fails.
    match goal with Hv : response_value _ = inr _ |- _ => rewrite Hv end.
    reflexivity.
Qed.

Lemma tickets_trace_stops self release_id t r evs :
  tickets_trace self release_id t r evs -> stops_at_failed_update r evs.
Proof.
  destruct 1.
  - apply stops_without_failure, failure_lines_not_failed.
  - apply stops_without_failure. constructor.
  - apply stops_cons; [reflexivity|]. eapply loop_trace_stops; eassumption.
  - apply stops_without_failure. constructor; [reflexivity|].
    apply Forall_app. split.
    + eapply loop_trace_ok_no_failure; eassumption.
    + repeat constructor.
Qed.

Lemma release_trace_stops self t r evs :
  release_trace self t r evs -> stops_at_failed_update r evs.
Proof.
  destruct 1.
  - apply stops_without_failure, failure_lines_not_failed.
  - apply stops_without_failure. constructor.
  - apply stops_without_failure. repeat constructor.
  - repeat (apply stops_cons; [reflexivity|]).
    eapply tickets_trace_stops; eassumption.
Qed.

Lemma run_trace_stops self today r evs :
  run_trace self today r evs -> stops_at_failed_update r evs.
Proof.
  destruct 1.
  - apply stops_without_failure.
    do 2 (constructor; [reflexivity|]). apply failure_lines_not_failed.
  - apply stops_without_failure. repeat constructor.
  - repeat (apply stops_cons; [reflexivity|]).
    eapply release_trace_stops; eassumption.
Qed.

(** C8: when the update request of a ticket fails, the process ends by
    [sys.exit(1)] and nothing is sent after it: no later ticket gets an
    update. *)
Theorem failed_update_ends_the_run self (w w' : world S) res new pre c t post :
  run serve self w = (res, w', new) ->
  new = pre ++ EvHttp c t :: post ->
  is_update (EvHttp c t) = true ->
  request_fails t = true ->
  res = Abort (SysExit 1) /\
  Forall (fun ev => is_http ev = false) post.
Proof.
  intros Hrun Hsplit Hupdate Hfails.
  apply run_has_trace, run_trace_stops in Hrun.
  apply (Hrun pre (EvHttp c t) post Hsplit).
  destruct c; try discriminate. exact Hfails.
Qed.

(** By position in the ticket list: when the loop reaches a ticket and its
    update fails, the loop ends there, whatever tickets come after; what it
    produced is what the earlier tickets produced, the failed exchange and
    the lines of the error. *)
Lemma failed_update_skips_later_tickets self release_id pre issue post
  (w w1 : world S) evs1 issue_key ids :
  add_fix_version_to_tickets serve self release_id (JArr pre) w = (Ok tt, w1, evs1) ->
  py_getitem issue "key" = Ok issue_key ->
  current_fix_version_ids issue = Ok ids ->
  py_in release_id ids = false ->
  request_fails
    (fst (serve (server w1) (update_call self issue_key (ids ++ [release_id])))) = true ->
  exists w' t e,
    response_value t = inl e /\
    add_fix_version_to_tickets serve self release_id (JArr (pre ++ issue :: post)) w =
    (Abort (SysExit 1), w',
     evs1 ++ EvHttp (update_call self issue_key (ids ++ [release_id])) t
          :: failure_lines e).
Proof.
  intros Hpre Hkey Hids Hin Hfails.
  rewrite (tickets_reach _ _ _ _ _ _ _ _ Hpre), ticket_step, Hkey, Hids, Hin.
  cbv zeta. unfold request_fails in Hfails.
  destruct (serve (server w1) _) as [t s']. simpl fst in Hfails.
  destruct (response_value t) as [e|v] eqn:Ht; [|discriminate].
  exists (with_server s' w1), t, e. split; [assumption|reflexivity].
Qed.

Lemma count_app p evs1 evs2 : count p (evs1 ++ evs2) = count p evs1 + count p evs2.
Proof. induction evs1 as [|ev evs1 IH]; simpl; [reflexivity|]. rewrite IH. lia. Qed.

(** C9: the count of the final summary is the number of issues the query
    returned, updated and skipped ones alike: it is the number of update
    requests plus the number of skipped issues, hence more than the number
    of update requests as soon as one issue is skipped. *)
Theorem summary_counts_every_issue self (w w' : world S) new :
  run serve self w = (Ok tt, w', new) ->
  exists ev found issues n before,
    In ev new /\ is_query ev = true /\ answer_value ev = Some found /\
    py_get found "issues" (JArr []) = Ok issues /\
    py_len issues = Ok n /\
    new = before ++ [summary_line self n] /\
    n = count is_update new + count is_already_line new /\
    (1 <= count is_already_line new -> count is_update new < n).
Proof.
  intros Hrun. apply run_has_trace in Hrun.
  inversion Hrun as [ | | t1 current_user data t2 r evs Ht1 Hdata Hrelease];
    subst; clear Hrun.
  inversion Hrelease
    as [ | | | t rel name release_id t3 r evs' Ht2 Hname Hid Htruthy Htickets];
    subst; clear Hrelease.
  inversion Htickets as [ | | | t found issues its evs'' Ht3 Hget Hlen Hiter Hloop];
    subst; clear Htickets.
  pose proof (loop_trace_counts _ _ _ _ Hloop) as Hcount.
  exists (EvHttp (query_call self) t3), found, issues, (length its).
  eexists ([_; _; _; _; _; _; _] ++ evs'' ++ [_]).
  split; [cbn [In]; tauto|].
  split; [reflexivity|].
  split; [simpl; rewrite Ht3; reflexivity|].
  split; [assumption|]. split; [assumption|].
  split.
  { cbn [app]. rewrite <- app_assoc. reflexivity. }
  assert (Hn : length its =
               count is_update
                 (start_line :: EvHttp (user_call self) t1 :: creating_line self ::
                  EvHttp (create_call self data) t2 :: created_line name ::
                  EvHttp (query_call self) t3 :: found_line self (length its) ::
                  evs'' ++ [done_line; summary_line self (length its)]) +
               count is_already_line
                 (start_line :: EvHttp (user_call self) t1 :: creating_line self ::
                  EvHttp (create_call self data) t2 :: created_line name ::
                  EvHttp (query_call self) t3 :: found_line self (length its) ::
                  evs'' ++ [done_line; summary_line self (length its)])).
  { cbn [count]. rewrite !count_app. cbn. lia. }
  split; [exact Hn|]. lia.
Qed.

(** C5: without the username or without the API token in the environment,
    the process exits with status 1 after one console line, and has called
    nothing on the network. *)
Theorem missing_credentials_exit release project status (w : world S) :
  lookup "JIRA_USERNAME" (environ w) = None \/
  lookup "JIRA_API_TOKEN" (environ w) = None ->
  exists e new,
    main serve release project status w = (Abort e, w, new) /\
    exit_code e <> 0%Z /\
    Forall (fun ev => is_http ev = false) new.
Proof.
  intros Hmissing.
  exists (SysExit 1),
    [EvPrint [Lit "Error: JIRA_USERNAME and JIRA_API_TOKEN environment variables must be set."]].
  split; [|split; [discriminate|repeat constructor]].
  unfold main, __init__, bind, getenv, print, sys_exit.
  destruct Hmissing as [-> | ->].
  - reflexivity.
  - simpl str_truthy. rewrite orb_true_r. reflexivity.
Qed.

Lemma init_with_credentials release project status (w : world S) :
  str_truthy (lookup "JIRA_USERNAME" (environ w)) = true ->
  str_truthy (lookup "JIRA_API_TOKEN" (environ w)) = true ->
  exists self,
    __init__ release project status w = (Ok self, w, []) /\
    release_name self = release /\ project_name self = project /\
    ticket_status self = status.
Proof.
  intros Huser Htoken.
  unfold __init__, bind, getenv, print, sys_exit, ret.
  rewrite Huser, Htoken. simpl.
  eexists. split; [reflexivity|]. simpl. auto.
Qed.

(** C4: in the end-to-end scenario (release "v1.2.3", project "PROJ", status
    "Ready for Release", user jdoe, created release 10050, PROJ-1 without
    versions and PROJ-2 with version 9000) the run completes, its updates
    are the PUT of [{id: 10050}] for PROJ-1 and the PUT of
    [{id: 9000}, {id: 10050}] for PROJ-2, in this order, and its last line
    reports 2 issues. *)
Theorem scenario_updates_both_issues (w : world S) :
  scenario_tracker serve ->
  str_truthy (lookup "JIRA_USERNAME" (environ w)) = true ->
  str_truthy (lookup "JIRA_API_TOKEN" (environ w)) = true ->
  exists self w' new t1 t2 before line,
    __init__ "v1.2.3" "PROJ" "Ready for Release" w = (Ok self, w, []) /\
    main serve "v1.2.3" "PROJ" "Ready for Release" w = (Ok tt, w', new) /\
    filter is_update new =
      [EvHttp (requests_put (issue_url self (JStr "PROJ-1")) (auth_of self) json_headers
                 (Some (JObj [("fields",
                               JObj [("fixVersions",
                                      JArr [JObj [("id", JStr "10050")]])])]))) t1;
       EvHttp (requests_put (issue_url self (JStr "PROJ-2")) (auth_of self) json_headers
                 (Some (JObj [("fields",
                               JObj [("fixVersions",
                                      JArr [JObj [("id", JStr "9000")];
                                            JObj [("id", JStr "10050")]])])]))) t2] /\
    new = before ++ [EvPrint line] /\
    render line =
      Some "Created release 'v1.2.3' and added it as a fixVersion to 2 issues".
Proof.
  intros (Huser & Hcreate & Hquery & Hupdate) Hname Htoken.
  destruct (init_with_credentials "v1.2.3" "PROJ" "Ready for Release" w Hname Htoken)
    as (self & Hinit & Hrelease & Hproject & Hstatus).
  exists self.
  unfold main, bind. rewrite Hinit.
  rewrite run_eq, create_release_eq.
  specialize (Huser (server w) self).
  destruct (serve (server w) (user_call self)) as [t1 s1]. simpl in Huser.
  rewrite Huser.
  assert (Hdata : release_data self (clock w) scenario_user =
                  Ok [("name", JStr (release_name self));
                      ("project", JStr (project_name self));
                      ("released", JBool false);
                      ("userReleaseDate", JStr (strftime_ymd (clock w)));
                      ("projectId", JNull); ("owner", JStr "jdoe")])
    by reflexivity.
  rewrite Hdata.
  match goal with |- context [create_call self ?d] => specialize (Hcreate s1 self d) end.
  destruct (serve s1 (create_call self _)) as [t2 s2]. simpl in Hcreate.
  rewrite Hcreate.
  cbn [scenario_release py_get lookup String.eqb Ascii.eqb Bool.eqb py_truthy negb].
  rewrite get_tickets_with_status_eq.
  specialize (Hquery (server (with_server s2 w)) self).
  destruct (serve (server (with_server s2 w)) (query_call self)) as [t3 s3].
  simpl in Hquery. rewrite Hquery.
  cbn [scenario_found py_get lookup String.eqb Ascii.eqb Bool.eqb py_len length].
  rewrite tickets_of_list. cbn [for_each]. unfold bind, ret.
  set (issue1 := JObj [("key", JStr "PROJ-1"); ("fields", JObj [("fixVersions", JArr [])])]).
  set (issue2 := JObj [("key", JStr "PROJ-2");
                       ("fields", JObj [("fixVersions", JArr [JObj [("id", JStr "9000")]])])]).
  rewrite (ticket_step self (JStr "10050") issue1).
  change (py_getitem issue1 "key") with (Ok (JStr "PROJ-1")).
  change (current_fix_version_ids issue1) with (@Ok (list json) []).
  cbv beta iota zeta. change (py_in (JStr "10050") []) with false. cbv iota.
  pose proof (Hupdate (server (with_server s3 (with_server s2 w))) self
                (JStr "PROJ-1") ([] ++ [JStr "10050"])) as Hput1.
  destruct (serve (server (with_server s3 (with_server s2 w)))
              (update_call self (JStr "PROJ-1") ([] ++ [JStr "10050"])))
    as [t4 s4].
  unfold request_fails in Hput1. simpl fst in Hput1.
  destruct (response_value t4) as [e4|v4]; [discriminate|].
  rewrite (ticket_step self (JStr "10050") issue2).
  change (py_getitem issue2 "key") with (Ok (JStr "PROJ-2")).
  change (current_fix_version_ids issue2) with (Ok [JStr "9000"]).
  cbv beta iota zeta. change (py_in (JStr "10050") [JStr "9000"]) with false. cbv iota.
  match goal with
  | |- context [serve ?s (update_call self (JStr "PROJ-2") ?ids)] =>
      pose proof (Hupdate s self (JStr "PROJ-2") ids) as Hput2;
      destruct (serve s (update_call self (JStr "PROJ-2") ids)) as [t5 s5]
  end.
  unfold request_fails in Hput2. simpl fst in Hput2.
  destruct (response_value t5) as [e5|v5]; [discriminate|].
  rewrite Hrelease.
  eexists _, _, t4, t5, [_; _; _; _; _; _; _; _; _; _; _; _], _.
  split; [reflexivity|]. split; [reflexivity|].
  split; [reflexivity|].
  unfold summary_line. rewrite Hrelease.
  split; reflexivity.
Qed.

(** ** [_make_jira_request] on its own *)

Lemma make_request_of_call self url method params data c (w : world S) :
  call_of self url method params data = Some c ->
  _make_jira_request serve self url method params data w = request_outcome serve c w.
Proof.
  unfold call_of, _make_jira_request, auth_of, json_headers. cbv zeta.
  destruct (String.eqb (upper method) "GET").
  { intros [= <-]. apply outcome_of_http. }
  destruct (String.eqb (upper method) "POST").
  { intros [= <-]. apply outcome_of_http. }
  destruct (String.eqb (upper method) "PUT").
  { intros [= <-]. apply outcome_of_http. }
  discriminate.
Qed.

(** X1: a method other than GET, POST and PUT (in any letter case) makes
    [_make_jira_request] print one line and exit with status 1; nothing is
    sent and the tracker is left as it was. *)
Theorem unsupported_method_exits self url method params data (w : world S) :
  call_of self url method params data = None ->
  _make_jira_request serve self url method params data w =
  (Abort (SysExit 1), w,
   [EvPrint [Lit "Error: Unsupported HTTP method: "; Fmt (JStr method)]]).
Proof.
  unfold call_of, _make_jira_request. cbv zeta.
  destruct (String.eqb (upper method) "GET"); [discriminate|].
  destruct (String.eqb (upper method) "POST"); [discriminate|].
  destruct (String.eqb (upper method) "PUT"); [discriminate|].
  reflexivity.
Qed.

(** X2: the method is matched whatever its letter case: two spellings with
    the same upper-case form, one of GET, POST, PUT, give the same request
    and the same outcome. *)
Theorem method_case_is_ignored self url method method' params data c (w : world S) :
  upper method = upper method' ->
  call_of self url method params data = Some c ->
  _make_jira_request serve self url method' params data w =
  _make_jira_request serve self url method params data w.
Proof.
  intros Hupper Hcall.
  rewrite (make_request_of_call _ _ _ _ _ _ _ Hcall).
  apply make_request_of_call.
  unfold call_of in *. rewrite <- Hupper. exact Hcall.
Qed.

(** X3: when the tracker answers with a status from 400 to 599, the request
    ends the process with status 1 after the single line "Error making
    request to JIRA API: ..."; the lines with the status code and the body
    are not printed, since a response with such a status counts as false in
    the test [e.response] of the handler. *)
Theorem http_error_prints_one_line self url method params data c r s'
  (w : world S) :
  call_of self url method params data = Some c ->
  serve (server w) c = (Responded r, s') ->
  (400 <= status_code r < 600)%Z ->
  _make_jira_request serve self url method params data w =
  (Abort (SysExit 1), with_server s' w,
   [EvHttp c (Responded r);
    EvPrint [Lit "Error making request to JIRA API: "; FmtExc (HTTPError r)]]).
Proof.
  intros Hcall Hserve Hstatus.
  rewrite (make_request_of_call _ _ _ _ _ _ _ Hcall).
  unfold request_outcome. rewrite Hserve.
  assert (Hok : ok r = false).
  { unfold ok. apply negb_false_iff, andb_true_iff. split.
    - apply Z.leb_le. lia.
    - apply Z.ltb_lt. lia. }
  unfold response_value. rewrite Hok. cbn [negb].
  unfold failure_lines, exc_response. rewrite Hok. reflexivity.
Qed.

(** X4: the status and body lines of the handler are printed exactly for
    an exception raised by the call itself that carries a response whose
    status is not an error status (too many redirects); the process exits
    with status 1 all the same. *)
Theorem raised_with_response_prints_it self url method params data c msg r s'
  (w : world S) :
  call_of self url method params data = Some c ->
  serve (server w) c = (Raised msg (Some r), s') ->
  _make_jira_request serve self url method params data w =
  (Abort (SysExit 1), with_server s' w,
   EvHttp c (Raised msg (Some r)) ::
   EvPrint [Lit "Error making request to JIRA API: ";
            FmtExc (TransportError msg (Some r))] ::
   if (400 <=? status_code r)%Z && (status_code r <? 600)%Z then []
   else [EvPrint [Lit "Response status code: "; Fmt (JInt (status_code r))];
         EvPrint [Lit "Response body: "; Fmt (JStr (text r))]]).
Proof.
  intros Hcall Hserve.
  rewrite (make_request_of_call _ _ _ _ _ _ _ Hcall).
  unfold request_outcome. rewrite Hserve.
  unfold response_value, failure_lines, exc_response, ok.
  destruct ((400 <=? status_code r)%Z && (status_code r <? 600)%Z); reflexivity.
Qed.

(** X5: only the statuses from 400 to 599 are failures.  A response with
    any other status is decoded: status 204 or an empty body gives the
    empty dict, a JSON body gives its value, and a body that is not JSON
    ends the process with status 1 after one line. *)
Theorem other_statuses_are_decoded self url method params data c r s'
  (w : world S) :
  call_of self url method params data = Some c ->
  serve (server w) c = (Responded r, s') ->
  (status_code r < 400 \/ 600 <= status_code r)%Z ->
  _make_jira_request serve self url method params data w =
  if (status_code r =? 204)%Z || String.eqb (text r) "" then
    (Ok (JObj []), with_server s' w, [EvHttp c (Responded r)])
  else
    match json_body r with
    | Some v => (Ok v, with_server s' w, [EvHttp c (Responded r)])
    | None =>
        (Abort (SysExit 1), with_server s' w,
         [EvHttp c (Responded r);
          EvPrint [Lit "Error making request to JIRA API: "; FmtExc JSONDecodeError]])
    end.
Proof.
  intros Hcall Hserve Hstatus.
  rewrite (make_request_of_call _ _ _ _ _ _ _ Hcall).
  unfold request_outcome. rewrite Hserve.
  assert (Hok : ok r = true).
  { unfold ok. apply negb_true_iff, andb_false_iff.
    destruct Hstatus as [Hlow|Hhigh].
    - left. apply Z.leb_gt. lia.
    - right. apply Z.ltb_ge. lia. }
  unfold response_value. rewrite Hok. simpl negb. cbv iota.
  destruct ((status_code r =? 204)%Z || String.eqb (text r) ""); [reflexivity|].
  destruct (json_body r); reflexivity.
Qed.

(** ** Start-up *)

Lemma init_eq release project status (w : world S) :
  __init__ release project status w =
  if str_truthy (lookup "JIRA_USERNAME" (environ w)) &&
     str_truthy (lookup "JIRA_API_TOKEN" (environ w))
  then (Ok (creator_of (environ w) release project status), w, [])
  else (Abort (SysExit 1), w,
        [EvPrint [Lit "Error: JIRA_USERNAME and JIRA_API_TOKEN environment variables must be set."]]).
Proof.
  unfold __init__, bind, getenv, print, sys_exit, ret, creator_of.
  destruct (str_truthy (lookup "JIRA_USERNAME" (environ w)));
    destruct (str_truthy (lookup "JIRA_API_TOKEN" (environ w))); reflexivity.
Qed.

(** X6: a credential that is set but empty counts as missing: the process
    prints the one error line and exits with status 1 without calling the
    tracker. *)
Theorem empty_credentials_exit release project status (w : world S) :
  lookup "JIRA_USERNAME" (environ w) = Some "" \/
  lookup "JIRA_API_TOKEN" (environ w) = Some "" ->
  main serve release project status w =
  (Abort (SysExit 1), w,
   [EvPrint [Lit "Error: JIRA_USERNAME and JIRA_API_TOKEN environment variables must be set."]]).
Proof.
  intros Hempty. unfold main, bind. rewrite init_eq.
  destruct Hempty as [-> | ->]; simpl str_truthy.
  - reflexivity.
  - rewrite andb_false_r. reflexivity.
Qed.

(** X7: with both credentials set and not empty, start-up prints nothing
    and the process is the run of the creator made of the command line, the
    two credentials, and the base URL of the environment or, without one,
    the placeholder host. *)
Theorem main_runs_the_creator release project status (w : world S) :
  str_truthy (lookup "JIRA_USERNAME" (environ w)) = true ->
  str_truthy (lookup "JIRA_API_TOKEN" (environ w)) = true ->
  main serve release project status w =
  run serve (creator_of (environ w) release project status) w.
Proof.
  intros Huser Htoken. unfold main, bind. rewrite init_eq, Huser, Htoken.
  simpl andb. cbv iota.
  destruct (run serve _ w) as [[r w'] evs]. reflexivity.
Qed.

(** X8: whatever stops the process early (missing credentials, a failed
    request, a release without id, an exception raised on a malformed
    answer), its exit status is 1. *)
Theorem every_abort_exits_with_1 release project status (w w' : world S) e new :
  main serve release project status w = (Abort e, w', new) ->
  exit_code e = 1%Z.
Proof.
  unfold main, bind. rewrite init_eq.
  destruct (str_truthy _ && str_truthy _).
  - destruct (run serve _ w) as [[r w1] evs] eqn:Hrun.
    intros [= -> _ _]. apply run_has_trace in Hrun.
    eapply run_trace_exit. eassumption.
  - intros [= <- _ _]. reflexivity.
Qed.

(** ** The creation request and its answer *)

Lemma release_data_owner self today current_user data :
  release_data self today current_user = Ok data ->
  lookup "owner" data = owner_of current_user /\
  lookup "name" data = Some (JStr (release_name self)) /\
  lookup "project" data = Some (JStr (project_name self)) /\
  lookup "projectId" data = Some JNull.
Proof.
  unfold release_data.
  destruct (py_truthy current_user) eqn:Htruthy.
  - destruct current_user as [| b | n | s | l | kvs]; simpl; try discriminate.
    + destruct (substring_of "key" s); [discriminate|].
      intros [= <-]. repeat split; reflexivity.
    + destruct (py_in (JStr "key") l); [discriminate|].
      intros [= <-]. repeat split; reflexivity.
    + unfold has_key. destruct (lookup "key" kvs) as [owner|].
      * intros [= <-]. repeat split; reflexivity.
      * intros [= <-]. repeat split; reflexivity.
  - intros [= <-].
    destruct current_user as [| b | n | s | l | kvs]; simpl in *;
      try (repeat split; reflexivity).
    destruct kvs; [repeat split; reflexivity|discriminate].
Qed.

(** X9: the creation request names as owner the 'key' of the current-user
    answer when that answer is an object with a 'key', and no owner
    otherwise; it always carries the release name, the project, and a null
    projectId. *)
Theorem creation_body_owner self (w w' : world S) res new url auth headers fields t' :
  run serve self w = (res, w', new) ->
  In (EvHttp (requests_post url auth headers (Some (JObj fields))) t') new ->
  exists t current_user,
    In (EvHttp (user_call self) t) new /\
    response_value t = inr current_user /\
    lookup "owner" fields = owner_of current_user /\
    lookup "name" fields = Some (JStr (release_name self)) /\
    lookup "project" fields = Some (JStr (project_name self)) /\
    lookup "projectId" fields = Some JNull.
Proof.
  intros Hrun Hin. apply run_has_trace in Hrun.
  destruct Hrun as [t1 e Ht | t1 current_user exc Ht Hdata
                   | t1 current_user data t2 r evs Ht Hdata Hrelease];
    cbn [In] in Hin.
  - exfalso. destruct Hin as [Hin|[Hin|Hin]]; try discriminate.
    pose proof (failure_lines_prints e) as Hprints.
    rewrite Forall_forall in Hprints. apply Hprints in Hin. discriminate.
  - exfalso. destruct Hin as [Hin|[Hin|[]]]; discriminate.
  - destruct Hin as [Hin|[Hin|[Hin|[Hin|Hin]]]]; try discriminate.
    + injection Hin as _ _ _ <- _.
      exists t1, current_user. split; [cbn [In]; tauto|]. split; [assumption|].
      eapply release_data_owner. eassumption.
    + exfalso.
      pose proof (release_trace_no_creation _ _ _ _ Hrelease) as Hkinds.
      rewrite Forall_forall in Hkinds. apply Hkinds in Hin. discriminate.
Qed.

(** X10: an id that is present but false for Python (null, the empty
    string, 0, false, an empty list or dict) stops the run like a missing
    one: the last line is the release-id error, the exit status is 1, and
    no ticket is queried or updated. *)
Theorem falsy_release_id_aborts self (w w' : world S) res new ev release release_id :
  run serve self w = (res, w', new) ->
  In ev new ->
  is_creation ev = true ->
  answer_value ev = Some release ->
  py_get release "id" JNull = Ok release_id ->
  py_truthy release_id = false ->
  res = Abort (SysExit 1) /\
  Forall (fun ev' => is_query ev' = false /\ is_update ev' = false) new /\
  exists before, new = before ++ [no_id_line].
Proof.
  intros Hrun Hin Hcreation Hanswer Hid Hfalsy.
  apply run_has_trace in Hrun.
  assert (Hfail : forall e, In ev (failure_lines e) -> False).
  { intros e Hin'. pose proof (failure_lines_kinds e) as H.
    rewrite Forall_forall in H. destruct (H _ Hin') as (Hc & _). congruence. }
  destruct Hrun as [t1 e Ht | t1 current_user exc Ht Hdata
                   | t1 current_user data t2 r evs Ht Hdata Hrelease];
    cbn [In] in Hin.
  { exfalso. destruct Hin as [<-|[<-|Hin]]; try discriminate. eauto. }
  { exfalso. destruct Hin as [<-|[<-|[]]]; discriminate. }
  assert (Hev : ev = EvHttp (create_call self data) t2).
  { destruct Hin as [<-|[<-|[<-|[<-|Hin]]]]; try discriminate; [reflexivity|].
    pose proof (release_trace_no_creation _ _ _ _ Hrelease) as Hkinds.
    rewrite Forall_forall in Hkinds. apply Hkinds in Hin. congruence. }
  subst ev. simpl in Hanswer.
  destruct Hrelease as [t2 e Ht2 | t2 rel Ht2 Hname
                       | t2 rel name rid Ht2 Hname Hid' Htruthy
                       | t2 rel name rid t3 r evs Ht2 Hname Hid' Htruthy Htickets];
    rewrite Ht2 in Hanswer; try discriminate; injection Hanswer as ->.
  - exfalso. destruct release; discriminate.
  - split; [reflexivity|]. split.
    + repeat (constructor; [split; reflexivity|]). constructor.
    + eexists [_; _; _; _; _]. reflexivity.
  - exfalso. congruence.
Qed.

(** ** What the updates are *)

Lemma loop_trace_update_inv self release_id issues r evs url auth headers data t :
  loop_trace self release_id issues r evs ->
  In (EvHttp (requests_put url auth headers data) t) evs ->
  exists issue issue_key ids,
    In issue issues /\
    py_getitem issue "key" = Ok issue_key /\
    current_fix_version_ids issue = Ok ids /\
    py_in release_id ids = false /\
    url = issue_url self issue_key /\
    data = Some (fix_versions_data (ids ++ [release_id])).
Proof.
  induction 1 as [ | | issue rest issue_key ids r evs Hkey Hids Hin' Hloop IH
                 | issue rest issue_key ids t' v r evs Hkey Hids Hin' Hv Hloop IH
                 | issue rest issue_key ids t' e Hkey Hids Hin' He ];
    cbn [In]; intros Hin.
  - contradiction.
  - contradiction.
  - destruct Hin as [Hin|Hin]; [discriminate|].
    destruct (IH Hin) as (i & k & l & Hi & H'). exists i, k, l.
    split; [right; assumption|assumption].
  - destruct Hin as [Hin|[Hin|Hin]]; [|discriminate|].
    + injection Hin as <- _ _ <- _.
      exists issue, issue_key, ids. cbn [In]. auto 10.
    + destruct (IH Hin) as (i & k & l & Hi & H'). exists i, k, l.
      split; [right; assumption|assumption].
  - destruct Hin as [Hin|Hin].
    + injection Hin as <- _ _ <- _.
      exists issue, issue_key, ids. cbn [In]. auto 10.
    + exfalso. pose proof (failure_lines_prints e) as Hprints.
      rewrite Forall_forall in Hprints. apply Hprints in Hin. discriminate.
Qed.

(** X11: every update the attach operation sends is for one of the tickets
    it was given: it is addressed to that ticket's key, the ticket's ids did
    not contain the release id, and the body is the ticket's ids followed
    by the release id. *)
Theorem updates_are_for_given_tickets self release_id issues (w w' : world S)
  res evs url auth headers data t :
  add_fix_version_to_tickets serve self release_id issues w = (res, w', evs) ->
  In (EvHttp (requests_put url auth headers data) t) evs ->
  exists its issue issue_key ids,
    py_iter issues = Ok its /\
    In issue its /\
    py_getitem issue "key" = Ok issue_key /\
    current_fix_version_ids issue = Ok ids /\
    py_in release_id ids = false /\
    url = issue_url self issue_key /\
    data = Some (fix_versions_data (ids ++ [release_id])).
Proof.
  unfold add_fix_version_to_tickets, bind, lift.
  destruct (py_iter issues) as [its|e].
  - destruct (for_each _ its w) as [[r w1] evs1] eqn:Hloop.
    intros [= <- <- <-] Hin. apply for_each_trace in Hloop.
    destruct (loop_trace_update_inv _ _ _ _ _ _ _ _ _ _ Hloop Hin)
      as (issue & issue_key & ids & H').
    exists its, issue, issue_key, ids. split; [reflexivity|assumption].
  - intros [= <- <- <-] [].
Qed.

Lemma tickets_trace_update_inv self release_id t r evs url auth headers data t' :
  tickets_trace self release_id t r evs ->
  In (EvHttp (requests_put url auth headers data) t') evs ->
  exists ids, data = Some (fix_versions_data (ids ++ [release_id])).
Proof.
  assert (Hfail : forall e, In (EvHttp (requests_put url auth headers data) t')
                              (failure_lines e) -> False).
  { intros e Hin. pose proof (failure_lines_prints e) as Hprints.
    rewrite Forall_forall in Hprints. apply Hprints in Hin. discriminate. }
  destruct 1 as [ | | t found issues its e evs Ht Hget Hlen Hiter Hloop
                | t found issues its evs Ht Hget Hlen Hiter Hloop ];
    cbn [In]; intros Hin.
  - exfalso. eauto.
  - contradiction.
  - destruct Hin as [Hin|Hin]; [discriminate|].
    destruct (loop_trace_update_inv _ _ _ _ _ _ _ _ _ _ Hloop Hin)
      as (_ & _ & ids & _ & _ & _ & _ & _ & ->). eauto.
  - destruct Hin as [Hin|Hin]; [discriminate|].
    apply in_app_or in Hin. destruct Hin as [Hin|Hin].
    + destruct (loop_trace_update_inv _ _ _ _ _ _ _ _ _ _ Hloop Hin)
        as (_ & _ & ids & _ & _ & _ & _ & _ & ->). eauto.
    + cbn [In] in Hin. destruct Hin as [Hin|[Hin|[]]]; discriminate.
Qed.

(** X12: a run updates tickets only with the release it has just created:
    for every update of a run there is a creation request of the same run
    whose answer has an id that is true for Python, and that id is the
    last entry of the update. *)
Theorem updates_carry_the_created_release self (w w' : world S) res new
  url auth headers data t :
  run serve self w = (res, w', new) ->
  In (EvHttp (requests_put url auth headers data) t) new ->
  exists ev release release_id ids,
    In ev new /\ is_creation ev = true /\
    answer_value ev = Some release /\
    py_get release "id" JNull = Ok release_id /\
    py_truthy release_id = true /\
    data = Some (fix_versions_data (ids ++ [release_id])).
Proof.
  intros Hrun Hin. apply run_has_trace in Hrun.
  assert (Hfail : forall e, In (EvHttp (requests_put url auth headers data) t)
                              (failure_lines e) -> False).
  { intros e Hin'. pose proof (failure_lines_prints e) as Hprints.
    rewrite Forall_forall in Hprints. apply Hprints in Hin'. discriminate. }
  destruct Hrun as [t1 e Ht | t1 current_user exc Ht Hdata
                   | t1 current_user body t2 r evs Ht Hdata Hrelease];
    cbn [In] in Hin.
  { exfalso. destruct Hin as [Hin|[Hin|Hin]]; try discriminate. eauto. }
  { exfalso. destruct Hin as [Hin|[Hin|[]]]; discriminate. }
  destruct Hin as [Hin|[Hin|[Hin|[Hin|Hin]]]]; try discriminate.
  destruct Hrelease as [t2 e Ht2 | t2 rel Ht2 Hname
                       | t2 rel name rid Ht2 Hname Hid Htruthy
                       | t2 rel name rid t3 r evs Ht2 Hname Hid Htruthy Htickets];
    cbn [In] in Hin.
  - exfalso. eauto.
  - contradiction.
  - exfalso. destruct Hin as [Hin|[Hin|[]]]; discriminate.
  - destruct Hin as [Hin|[Hin|Hin]]; try discriminate.
    destruct (tickets_trace_update_inv _ _ _ _ _ _ _ _ _ _ Htickets Hin)
      as [ids ->].
    exists (EvHttp (create_call self body) t2), rel, rid, ids.
    split; [cbn [In]; tauto|]. split; [reflexivity|].
    split; [simpl; rewrite Ht2; reflexivity|]. auto.
Qed.

(** ** Where the requests go, and how many there are *)

Lemma prints_addressed self evs :
  Forall (fun ev => is_http ev = false) evs -> Forall (addressed_by self) evs.
Proof.
  apply Forall_impl. intros [line|c t]; simpl; [auto|discriminate].
Qed.

Lemma update_addressed self issue_key ids t :
  addressed_by self (EvHttp (update_call self issue_key ids) t).
Proof. simpl. repeat split. eexists. reflexivity. Qed.

Lemma loop_trace_addressed self release_id issues r evs :
  loop_trace self release_id issues r evs -> Forall (addressed_by self) evs.
Proof.
  induction 1.
  - constructor.
  - constructor.
  - constructor; [exact I|assumption].
  - constructor; [apply update_addressed|].
    constructor; [exact I|assumption].
  - constructor; [apply update_addressed|].
    apply prints_addressed, failure_lines_prints.
Qed.

Lemma tickets_trace_addressed self release_id t r evs :
  tickets_trace self release_id t r evs -> Forall (addressed_by self) evs.
Proof.
  destruct 1.
  - apply prints_addressed, failure_lines_prints.
  - constructor.
  - constructor; [exact I|]. eapply loop_trace_addressed; eassumption.
  - constructor; [exact I|]. apply Forall_app. split.
    + eapply loop_trace_addressed; eassumption.
    + repeat constructor.
Qed.

Lemma release_trace_addressed self t r evs :
  release_trace self t r evs -> Forall (addressed_by self) evs.
Proof.
  destruct 1.
  - apply prints_addressed, failure_lines_prints.
  - constructor.
  - repeat constructor.
  - constructor; [exact I|]. constructor.
    + simpl. repeat split. eexists. reflexivity.
    + eapply tickets_trace_addressed; eassumption.
Qed.

(** X13: every request of a run goes to a resource under the base URL of
    the creator, with its username and token as credentials and the JSON
    content type: the script calls no other host and sends nothing
    unauthenticated. *)
Theorem requests_are_addressed_to_the_tracker self (w w' : world S) res new :
  run serve self w = (res, w', new) ->
  Forall (addressed_by self) new.
Proof.
  intros Hrun. apply run_has_trace in Hrun.
  assert (Huser : forall t, addressed_by self (EvHttp (user_call self) t)).
  { intros t. simpl. repeat split. eexists. reflexivity. }
  destruct Hrun as [t1 e Ht | t1 current_user exc Ht Hdata
                   | t1 current_user data t2 r evs Ht Hdata Hrelease].
  - constructor; [exact I|]. constructor; [apply Huser|].
    apply prints_addressed, failure_lines_prints.
  - constructor; [exact I|]. constructor; [apply Huser|]. constructor.
  - constructor; [exact I|]. constructor; [apply Huser|].
    constructor; [exact I|]. constructor.
    + simpl. repeat split. eexists. reflexivity.
    + eapply release_trace_addressed; eassumption.
Qed.

Lemma count_none p evs :
  Forall (fun ev => p ev = false) evs -> count p evs = 0.
Proof.
  induction 1 as [|ev evs Hev _ IH]; simpl; [reflexivity|].
  rewrite Hev, IH. reflexivity.
Qed.

Lemma count_same p q evs :
  Forall (fun ev => p ev = q ev) evs -> count p evs = count q evs.
Proof.
  induction 1 as [|ev evs Hev _ IH]; simpl; [reflexivity|].
  rewrite Hev, IH. reflexivity.
Qed.

Lemma failure_lines_no p e :
  (forall line, p (EvPrint line) = false) -> count p (failure_lines e) = 0.
Proof.
  intros Hp. apply count_none.
  eapply Forall_impl; [|apply failure_lines_prints].
  intros [line|c t]; simpl; [auto|discriminate].
Qed.

Lemma loop_trace_requests self release_id issues r evs :
  loop_trace self release_id issues r evs ->
  count is_http evs = count is_update evs /\
  count is_update evs <= length issues.
Proof.
  induction 1; cbn [count length is_http is_update update_call already_line added_line].
  - split; [reflexivity|lia].
  - split; [reflexivity|lia].
  - lia.
  - lia.
  - rewrite !failure_lines_no by reflexivity. lia.
Qed.

Lemma tickets_trace_requests self release_id t r evs :
  tickets_trace self release_id t r evs ->
  count is_creation evs = 0 /\ count is_query evs = 0 /\
  count is_http evs = count is_update evs.
Proof.
  intros Htickets.
  pose proof (tickets_trace_kinds _ _ _ _ _ Htickets) as Hkinds.
  split; [|split].
  - apply count_none. eapply Forall_impl; [|exact Hkinds]. simpl. tauto.
  - apply count_none. eapply Forall_impl; [|exact Hkinds]. simpl. tauto.
  - destruct Htickets.
    + rewrite !failure_lines_no by reflexivity. reflexivity.
    + reflexivity.
    + cbn [count found_line is_http is_update].
      destruct (loop_trace_requests _ _ _ _ _ H3) as [-> _]. reflexivity.
    + cbn [count found_line is_http is_update]. rewrite !count_app.
      destruct (loop_trace_requests _ _ _ _ _ H3) as [-> _]. reflexivity.
Qed.

(** X14: nothing is sent twice: a run sends at most one creation request
    and at most one ticket query, and, the updates apart, at most three
    requests in all (current user, creation, query). *)
Theorem no_request_is_repeated self (w w' : world S) res new :
  run serve self w = (res, w', new) ->
  count is_creation new <= 1 /\
  count is_query new <= 1 /\
  count is_http new <= 3 + count is_update new.
Proof.
  intros Hrun. apply run_has_trace in Hrun.
  destruct Hrun as [t1 e Ht | t1 current_user exc Ht Hdata
                   | t1 current_user data t2 r evs Ht Hdata Hrelease].
  - cbn [count start_line user_call is_creation is_query is_http is_update String.eqb Ascii.eqb Bool.eqb].
    rewrite !failure_lines_no by reflexivity. lia.
  - cbn. lia.
  - cbn [count start_line user_call creating_line create_call is_creation is_query
           is_http is_update String.eqb Ascii.eqb Bool.eqb].
    destruct Hrelease as [t2 e Ht2 | t2 rel Ht2 Hname
                         | t2 rel name rid Ht2 Hname Hid Htruthy
                         | t2 rel name rid t3 r evs Ht2 Hname Hid Htruthy Htickets].
    + rewrite !failure_lines_no by reflexivity. lia.
    + cbn. lia.
    + cbn. lia.
    + cbn [count created_line query_call is_creation is_query is_http is_update
             String.eqb Ascii.eqb Bool.eqb].
      destruct (tickets_trace_requests _ _ _ _ _ Htickets) as (-> & -> & ->). lia.
Qed.

(** X15: what [get_tickets_with_status] returns can be counted and
    iterated, with as many elements as the line it printed says: the loop
    over the tickets and the final summary cannot fail on the list itself. *)
Theorem returned_tickets_are_iterable self (w w' : world S) issues evs :
  get_tickets_with_status serve self w = (Ok issues, w', evs) ->
  exists t its,
    py_iter issues = Ok its /\
    py_len issues = Ok (length its) /\
    evs = [EvHttp (query_call self) t; found_line self (length its)].
Proof.
  rewrite get_tickets_with_status_eq.
  destruct (serve (server w) (query_call self)) as [t s'].
  destruct (response_value t) as [e|found]; [discriminate|].
  destruct (py_get found "issues" (JArr [])) as [issues'|e]; [|discriminate].
  destruct (py_len issues') as [n|e] eqn:Hlen; [|discriminate].
  intros [= <- <- <-].
  destruct (py_iter_of_len _ _ Hlen) as (its & Hiter & <-).
  exists t, its. auto.
Qed.

(** ** The loop, ticket by ticket *)

Lemma failure_lines_no_ticket e : ticket_keys (failure_lines e) = [].
Proof.
  unfold failure_lines.
  destruct (exc_response e) as [r|]; [destruct (ok r)|]; reflexivity.
Qed.

Lemma loop_trace_keys self release_id issues evs :
  loop_trace self release_id issues (Ok tt) evs ->
  map_result (fun issue => py_getitem issue "key") issues = Ok (ticket_keys evs).
Proof.
  remember (Ok tt) as r eqn:Hr.
  induction 1 as [ | | issue rest issue_key ids r evs Hkey Hids Hin' Hloop IH
                 | issue rest issue_key ids t' v r evs Hkey Hids Hin' Hv Hloop IH
                 | ]; try discriminate.
  - reflexivity.
  - simpl map_result. rewrite Hkey, (IH Hr). reflexivity.
  - simpl map_result. rewrite Hkey, (IH Hr). reflexivity.
Qed.

(** X16: when the attach operation goes through a list of tickets, it has
    dealt with each ticket once and in the order of the list: the keys its
    updates are addressed to and its "already has" lines name, in the order
    of the events, are the keys of the tickets; and it has sent at most one
    update per ticket. *)
Theorem tickets_are_processed_in_order self release_id issues (w w' : world S) evs :
  add_fix_version_to_tickets serve self release_id (JArr issues) w = (Ok tt, w', evs) ->
  map_result (fun issue => py_getitem issue "key") issues = Ok (ticket_keys evs) /\
  count is_update evs <= length issues.
Proof.
  rewrite tickets_of_list. intros Hloop. apply for_each_trace in Hloop.
  split.
  - eapply loop_trace_keys. eassumption.
  - eapply loop_trace_requests. eassumption.
Qed.

(** X17: a ticket the script cannot read (no 'key', fields that are not an
    object, versions that cannot be iterated, a version without 'id') ends
    the loop with the uncaught exception: nothing is sent for this ticket
    or the later ones, and what was sent for the earlier ones stays sent. *)
Theorem unreadable_ticket_stops_the_loop self release_id pre issue post
  (w w1 : world S) evs1 e :
  add_fix_version_to_tickets serve self release_id (JArr pre) w = (Ok tt, w1, evs1) ->
  py_getitem issue "key" = Abort e \/
  (exists issue_key, py_getitem issue "key" = Ok issue_key) /\
  current_fix_version_ids issue = Abort e ->
  add_fix_version_to_tickets serve self release_id (JArr (pre ++ issue :: post)) w =
    (Abort e, w1, evs1) /\
  exists exc, e = Uncaught exc.
Proof.
  intros Hpre Hbad.
  rewrite (tickets_reach _ _ _ _ _ _ _ _ Hpre), ticket_step.
  destruct Hbad as [Hkey | [[issue_key Hkey] Hids]].
  - rewrite Hkey, app_nil_r. split; [reflexivity|].
    eapply py_getitem_abort. eassumption.
  - rewrite Hkey, Hids, app_nil_r. split; [reflexivity|].
    eapply current_fix_version_ids_abort. eassumption.
Qed.

(** ** Python equality on values with distinct keys *)

Lemma json_induction (P : json -> Prop) :
  P JNull -> (forall b, P (JBool b)) -> (forall n, P (JInt n)) ->
  (forall s, P (JStr s)) ->
  (forall xs, Forall P xs -> P (JArr xs)) ->
  (forall kvs, Forall (fun kv => P (snd kv)) kvs -> P (JObj kvs)) ->
  forall v, P v.
Proof.
  intros Hnull Hbool Hint Hstr Harr Hobj.
  fix IH 1. intros [| b | n | s | xs | kvs].
  - exact Hnull.
  - apply Hbool.
  - apply Hint.
  - apply Hstr.
  - apply Harr. induction xs as [|x xs IHxs]; constructor; [apply IH|exact IHxs].
  - apply Hobj. induction kvs as [|[k x] kvs IHkvs]; constructor;
      [apply IH|exact IHkvs].
Qed.

Lemma lookup_distinct (k : string) (v : json) kvs :
  distinct (map fst kvs) = true -> In (k, v) kvs -> lookup k kvs = Some v.
Proof.
  induction kvs as [|[k' v'] kvs IH]; simpl; [contradiction|].
  intros Hdistinct [Hhead|Htail].
  - injection Hhead as -> ->. rewrite String.eqb_refl. reflexivity.
  - apply andb_true_iff in Hdistinct. destruct Hdistinct as [Hfresh Hrest].
    destruct (String.eqb k k') eqn:Hk.
    + exfalso. apply String.eqb_eq in Hk. subst k'.
      apply negb_true_iff in Hfresh.
      assert (Hex : existsb (String.eqb k) (map fst kvs) = true).
      { apply existsb_exists. exists k. split; [|apply String.eqb_refl].
        apply (in_map fst) in Htail. exact Htail. }
      congruence.
    + auto.
Qed.

Lemma py_eq_refl v : distinct_keys v = true -> py_eq v v = true.
Proof.
  induction v as [| b | n | s | xs IH | kvs IH] using json_induction;
    intros Hwf.
  - reflexivity.
  - destruct b; reflexivity.
  - simpl. apply Z.eqb_refl.
  - simpl. apply String.eqb_refl.
  - simpl in *. induction IH as [|x xs Hx _ IHxs]; [reflexivity|].
    simpl in Hwf. apply andb_true_iff in Hwf. destruct Hwf as [Hwx Hwxs].
    rewrite (Hx Hwx). simpl. apply IHxs. exact Hwxs.
  - simpl in Hwf. apply andb_true_iff in Hwf. destruct Hwf as [Hdistinct Hall].
    simpl. rewrite Nat.eqb_refl. simpl.
    assert (Hsub : forall xs,
               (forall kv, In kv xs -> In kv kvs) ->
               (fix all_in (xs : list (string * json)) : bool :=
                  match xs with
                  | [] => true
                  | (k, v) :: xs' =>
                      match lookup k kvs with
                      | Some v' => py_eq v v'
                      | None => false
                      end && all_in xs'
                  end) xs = true).
    { induction xs as [|[k v] xs IHxs]; intros Hincl; [reflexivity|].
      rewrite (lookup_distinct k v kvs Hdistinct) by (apply Hincl; left; reflexivity).
      rewrite Forall_forall in IH. rewrite forallb_forall in Hall.
      assert (Hkv : py_eq v v = true).
      { apply (IH (k, v)); [apply Hincl; left; reflexivity|].
        apply (Hall (k, v)). apply Hincl. left. reflexivity. }
      rewrite Hkv. simpl. apply IHxs. intros kv Hin. apply Hincl. right. exact Hin. }
    apply Hsub. auto.
Qed.

Lemma py_in_of_In x xs : distinct_keys x = true -> In x xs -> py_in x xs = true.
Proof.
  intros Hwf Hin. unfold py_in. apply existsb_exists.
  exists x. split; [exact Hin|apply py_eq_refl; exact Hwf].
Qed.

(** X18: running again is harmless for a ticket already updated: a ticket
    among whose version ids the release id occurs is skipped, with the
    single line "already has the fixVersion" and no request.  (The release
    id is a value whose dicts, if any, have distinct keys, as every Python
    value has.) *)
Theorem updated_ticket_is_skipped self release_id issue issue_key ids (w : world S) :
  distinct_keys release_id = true ->
  py_getitem issue "key" = Ok issue_key ->
  current_fix_version_ids issue = Ok ids ->
  In release_id ids ->
  add_fix_version_to_ticket serve self release_id issue w =
  (Ok tt, w, [already_line issue_key]).
Proof.
  intros Hwf Hkey Hids Hin.
  rewrite ticket_step, Hkey, Hids, (py_in_of_In _ _ Hwf Hin). reflexivity.
Qed.

(** ** Any failed request ends the run *)

Lemma ends_cons r ev evs :
  failed_request ev = false ->
  ends_at_failed_request r evs -> ends_at_failed_request r (ev :: evs).
Proof.
  intros Hev Hevs pre ev' post Hsplit Hfailed.
  destruct pre as [|ev0 pre].
  - injection Hsplit as <- _. congruence.
  - injection Hsplit as _ Hsplit. eapply Hevs; eassumption.
Qed.

Lemma ends_without_failure r evs :
  Forall (fun ev => failed_request ev = false) evs -> ends_at_failed_request r evs.
Proof.
  intros Hall pre ev post -> Hfailed.
  apply Forall_elt in Hall. congruence.
Qed.

Lemma failure_lines_no_request e :
  Forall (fun ev => failed_request ev = false) (failure_lines e).
Proof.
  eapply Forall_impl; [|apply failure_lines_prints].
  intros [line|c t]; simpl; [auto|discriminate].
Qed.

Lemma ends_at_failure c t e :
  response_value t = inl e ->
  ends_at_failed_request (Abort (SysExit 1)) (EvHttp c t :: failure_lines e).
Proof.
  intros Ht pre ev post Hsplit Hfailed.
  destruct pre as [|ev0 pre].
  - injection Hsplit as _ <-. split; [reflexivity|apply failure_lines_prints].
  - injection Hsplit as _ Hsplit. exfalso.
    pose proof (failure_lines_no_request e) as Hnone.
    rewrite Hsplit in Hnone. apply Forall_elt in Hnone. congruence.
Qed.

Lemma answered_not_failed c t v :
  response_value t = inr v -> failed_request (EvHttp c t) = false.
Proof. intros Ht. simpl. unfold request_fails. rewrite Ht. reflexivity. Qed.

Lemma loop_trace_ends self release_id issues r evs :
  loop_trace self release_id issues r evs -> ends_at_failed_request r evs.
Proof.
  intros Hloop pre ev post Hsplit Hfailed.
  destruct ev as [line|c t]; [discriminate|].
  simpl in Hfailed. unfold request_fails in Hfailed.
  destruct (response_value t) as [e|v] eqn:Ht; [|discriminate].
  destruct (loop_trace_failed_update _ _ _ _ _ _ _ _ _ _ Hloop Hsplit Ht)
    as [-> ->].
  split; [reflexivity|apply failure_lines_prints].
Qed.

Lemma loop_trace_ok_answered self release_id issues evs :
  loop_trace self release_id issues (Ok tt) evs ->
  Forall (fun ev => failed_request ev = false) evs.
Proof.
  remember (Ok tt) as r eqn:Hr.
  induction 1 as [ | | issue rest issue_key ids r evs Hkey Hids Hin Hloop IH
                 | issue rest issue_key ids t v r evs Hkey Hids Hin Hv Hloop IH
                 | ]; try discriminate.
  - constructor.
  - constructor; [reflexivity|auto].
  - constructor; [eapply answered_not_failed; eassumption|].
    constructor; [reflexivity|auto].
Qed.

Lemma tickets_trace_ends self release_id t r evs :
  tickets_trace self release_id t r evs ->
  ends_at_failed_request r (EvHttp (query_call self) t :: evs).
Proof.
  destruct 1 as [ t e Ht | t found exc Ht Hbad
                | t found issues its e evs Ht Hget Hlen Hiter Hloop
                | t found issues its evs Ht Hget Hlen Hiter Hloop ].
  - apply ends_at_failure. assumption.
  - apply ends_without_failure.
    constructor; [eapply answered_not_failed; eassumption|constructor].
  - apply ends_cons; [eapply answered_not_failed; eassumption|].
    apply ends_cons; [reflexivity|]. eapply loop_trace_ends; eassumption.
  - apply ends_without_failure.
    constructor; [eapply answered_not_failed; eassumption|].
    constructor; [reflexivity|].
    apply Forall_app. split.
    + eapply loop_trace_ok_answered; eassumption.
    + repeat constructor.
Qed.

Lemma release_trace_ends self c t r evs :
  release_trace self t r evs -> ends_at_failed_request r (EvHttp c t :: evs).
Proof.
  destruct 1 as [ t e Ht | t rel Ht Hname | t rel name rid Ht Hname Hid Htruthy
                | t rel name rid t3 r evs Ht Hname Hid Htruthy Htickets ].
  - apply ends_at_failure. assumption.
  - apply ends_without_failure.
    constructor; [eapply answered_not_failed; eassumption|constructor].
  - apply ends_without_failure.
    constructor; [eapply answered_not_failed; eassumption|repeat constructor].
  - apply ends_cons; [eapply answered_not_failed; eassumption|].
    apply ends_cons; [reflexivity|].
    eapply tickets_trace_ends; eassumption.
Qed.

(** X19: a failed request of any kind (current user, creation, query or
    update) ends the process with status 1, and nothing is sent after it:
    no retry, no later step.  In particular no release is created when the
    current user cannot be fetched, and no ticket is queried when the
    creation fails. *)
Theorem any_failed_request_ends_the_run self (w w' : world S) res new pre c t post :
  run serve self w = (res, w', new) ->
  new = pre ++ EvHttp c t :: post ->
  request_fails t = true ->
  res = Abort (SysExit 1) /\
  Forall (fun ev => is_http ev = false) post.
Proof.
  intros Hrun Hsplit Hfails. apply run_has_trace in Hrun.
  assert (Hends : ends_at_failed_request res new).
  { destruct Hrun as [t1 e Ht | t1 current_user exc Ht Hdata
                     | t1 current_user data t2 r evs Ht Hdata Hrelease].
    - apply ends_cons; [reflexivity|]. apply ends_at_failure. assumption.
    - apply ends_without_failure.
      constructor; [reflexivity|].
      constructor; [eapply answered_not_failed; eassumption|constructor].
    - apply ends_cons; [reflexivity|].
      apply ends_cons; [eapply answered_not_failed; eassumption|].
      apply ends_cons; [reflexivity|].
      eapply release_trace_ends; eassumption. }
  apply (Hends pre (EvHttp c t) post Hsplit). exact Hfails.
Qed.

End Properties.

(** ** Runs of the properties above on a scripted tracker *)

Lemma absent_release_id_is_appended_witness :
  exists res w' t later data,
    add_fix_version_to_tickets scripted demo_self (JStr "10050")
      (JArr ([ticket "PROJ-1" []] ++ ticket "PROJ-2" ["9000"] :: [ticket "PROJ-3" []]))
      (demo_world [no_content; no_content; no_content]) =
    (res, w',
     [EvHttp (update_call demo_self (JStr "PROJ-1") [JStr "10050"]) no_content;
      added_line (JStr "PROJ-1")] ++
     EvHttp (requests_put (issue_url demo_self (JStr "PROJ-2")) (auth_of demo_self)
               json_headers (Some data)) t
     :: later) /\
    t = fst (scripted [no_content; no_content]
               (requests_put (issue_url demo_self (JStr "PROJ-2")) (auth_of demo_self)
                  json_headers (Some data))) /\
    data_version_ids data = Ok ([JStr "9000"] ++ [JStr "10050"]).
Proof.
  apply (absent_release_id_is_appended scripted demo_self (JStr "10050")
           [ticket "PROJ-1" []] (ticket "PROJ-2" ["9000"]) [ticket "PROJ-3" []]
           (demo_world [no_content; no_content; no_content])
           (demo_world [no_content; no_content])
           _ (JStr "PROJ-2") [JStr "9000"]);
    reflexivity.
Defined.

Lemma present_release_id_is_skipped_witness :
  add_fix_version_to_ticket scripted demo_self (JStr "10050")
    (ticket "PROJ-2" ["9000"; "10050"]) (demo_world [no_content]) =
  (Ok tt, demo_world [no_content],
   [EvPrint [Lit "Issue "; Fmt (JStr "PROJ-2"); Lit " already has the fixVersion"]]) /\
  forall res w2 evs2,
    add_fix_version_to_tickets scripted demo_self (JStr "10050")
      (JArr [ticket "PROJ-3" []]) (demo_world [no_content]) = (res, w2, evs2) ->
    add_fix_version_to_tickets scripted demo_self (JStr "10050")
      (JArr ([ticket "PROJ-1" []] ++ ticket "PROJ-2" ["9000"; "10050"]
             :: [ticket "PROJ-3" []]))
      (demo_world [no_content; no_content]) =
    (res, w2,
     [EvHttp (update_call demo_self (JStr "PROJ-1") [JStr "10050"]) no_content;
      added_line (JStr "PROJ-1")] ++
     EvPrint [Lit "Issue "; Fmt (JStr "PROJ-2"); Lit " already has the fixVersion"]
     :: evs2).
Proof.
  apply (present_release_id_is_skipped scripted demo_self (JStr "10050")
           [ticket "PROJ-1" []] (ticket "PROJ-2" ["9000"; "10050"]) [ticket "PROJ-3" []]
           (demo_world [no_content; no_content])
           (demo_world [no_content])
           [EvHttp (update_call demo_self (JStr "PROJ-1") [JStr "10050"]) no_content;
            added_line (JStr "PROJ-1")]
           (JStr "PROJ-2") [JStr "9000"; JStr "10050"]);
    reflexivity.
Defined.

Lemma missing_fix_versions_is_empty_witness :
  current_fix_version_ids (JObj [("key", JStr "PROJ-7")]) = Ok [] /\
  exists res w' t later,
    add_fix_version_to_tickets scripted demo_self (JStr "10050")
      (JArr ([] ++ JObj [("key", JStr "PROJ-7")] :: [])) (demo_world [no_content]) =
    (res, w',
     [] ++
     EvHttp (requests_put (issue_url demo_self (JStr "PROJ-7")) (auth_of demo_self)
               json_headers
               (Some (JObj [("fields",
                             JObj [("fixVersions", JArr [JObj [("id", JStr "10050")]])])])))
            t
     :: later).
Proof.
  apply (missing_fix_versions_is_empty scripted demo_self (JStr "10050")
           [] [("key", JStr "PROJ-7")] [] (demo_world [no_content])
           (demo_world [no_content]) [] (JStr "PROJ-7")).
  - reflexivity.
  - reflexivity.
  - left. reflexivity.
Defined.

Lemma missing_release_id_aborts_witness :
  (exists e, fst (fst (run scripted demo_self (demo_world script_no_id))) = Abort e /\
             exit_code e <> 0%Z) /\
  Forall (fun ev' => is_query ev' = false /\ is_update ev' = false)
    (snd (run scripted demo_self (demo_world script_no_id))).
Proof.
  apply (missing_release_id_aborts scripted demo_self (demo_world script_no_id)
           (snd (fst (run scripted demo_self (demo_world script_no_id))))
           (fst (fst (run scripted demo_self (demo_world script_no_id))))
           (snd (run scripted demo_self (demo_world script_no_id)))
           (EvHttp (create_call demo_self demo_release_data)
              (reply 201 (JObj [("name", JStr "v1.2.3")])))
           (JObj [("name", JStr "v1.2.3")])).
  - reflexivity.
  - vm_compute. tauto.
  - reflexivity.
  - reflexivity.
  - reflexivity.
Defined.

Lemma scenario_updates_both_issues_witness :
  exists self w' new t1 t2 before line,
    __init__ "v1.2.3" "PROJ" "Ready for Release" scenario_world =
      (Ok self, scenario_world, []) /\
    main scenario_serve "v1.2.3" "PROJ" "Ready for Release" scenario_world =
      (Ok tt, w', new) /\
    filter is_update new =
      [EvHttp (requests_put (issue_url self (JStr "PROJ-1")) (auth_of self) json_headers
                 (Some (JObj [("fields",
                               JObj [("fixVersions",
                                      JArr [JObj [("id", JStr "10050")]])])]))) t1;
       EvHttp (requests_put (issue_url self (JStr "PROJ-2")) (auth_of self) json_headers
                 (Some (JObj [("fields",
                               JObj [("fixVersions",
                                      JArr [JObj [("id", JStr "9000")];
                                            JObj [("id", JStr "10050")]])])]))) t2] /\
    new = before ++ [EvPrint line] /\
    render line =
      Some "Created release 'v1.2.3' and added it as a fixVersion to 2 issues".
Proof.
  apply (scenario_updates_both_issues scenario_serve scenario_world).
  - repeat split; intros; reflexivity.
  - reflexivity.
  - reflexivity.
Defined.

Lemma missing_credentials_exit_witness :
  exists e new,
    main scripted "v1.2.3" "PROJ" "Ready for Release"
      {| environ := [("JIRA_USERNAME", "jdoe@example.com")];
         clock := {| year := 2024; month := 3; day := 7 |};
         server := [] |} =
    (Abort e,
     {| environ := [("JIRA_USERNAME", "jdoe@example.com")];
        clock := {| year := 2024; month := 3; day := 7 |};
        server := [] |}, new) /\
    exit_code e <> 0%Z /\
    Forall (fun ev => is_http ev = false) new.
Proof.
  apply (missing_credentials_exit scripted "v1.2.3" "PROJ" "Ready for Release"
           {| environ := [("JIRA_USERNAME", "jdoe@example.com")];
              clock := {| year := 2024; month := 3; day := 7 |};
              server := [] |}).
  right. reflexivity.
Defined.

Lemma creation_body_released_and_date_witness :
  exists fields,
    Some (JObj demo_release_data) = Some (JObj fields) /\
    lookup "released" fields = Some (JBool false) /\
    lookup "userReleaseDate" fields =
      Some (JStr (strftime_ymd (clock (demo_world script_no_tickets)))).
Proof.
  apply (creation_body_released_and_date scripted demo_self
           (demo_world script_no_tickets)
           (snd (fst (run scripted demo_self (demo_world script_no_tickets))))
           (fst (fst (run scripted demo_self (demo_world script_no_tickets))))
           (snd (run scripted demo_self (demo_world script_no_tickets)))
           [Fmt (JStr (jira_base_url demo_self)); Lit "/rest/api/2/version"]
           (auth_of demo_self) json_headers (Some (JObj demo_release_data))
           (reply 201 scenario_release)).
  - reflexivity.
  - vm_compute. tauto.
Defined.

Lemma empty_query_completes_witness :
  fst (fst (run scripted demo_self (demo_world script_no_tickets))) = Ok tt /\
  Forall (fun ev' => is_update ev' = false)
    (snd (run scripted demo_self (demo_world script_no_tickets))) /\
  exists before,
    snd (run scripted demo_self (demo_world script_no_tickets)) =
    before ++ [summary_line demo_self 0].
Proof.
  apply (empty_query_completes scripted demo_self (demo_world script_no_tickets)
           (snd (fst (run scripted demo_self (demo_world script_no_tickets))))
           (fst (fst (run scripted demo_self (demo_world script_no_tickets))))
           (snd (run scripted demo_self (demo_world script_no_tickets)))
           (EvHttp (query_call demo_self) (reply 200 (JObj [("issues", JArr [])])))
           (JObj [("issues", JArr [])])).
  - reflexivity.
  - vm_compute. tauto.
  - reflexivity.
  - reflexivity.
  - reflexivity.
Defined.

Lemma failed_update_ends_the_run_witness :
  fst (fst (run scripted demo_self (demo_world script_refused_update))) =
    Abort (SysExit 1) /\
  Forall (fun ev => is_http ev = false)
    (skipn 8 (snd (run scripted demo_self (demo_world script_refused_update)))).
Proof.
  apply (failed_update_ends_the_run scripted demo_self
           (demo_world script_refused_update)
           (snd (fst (run scripted demo_self (demo_world script_refused_update))))
           (fst (fst (run scripted demo_self (demo_world script_refused_update))))
           (snd (run scripted demo_self (demo_world script_refused_update)))
           (firstn 7 (snd (run scripted demo_self (demo_world script_refused_update))))
           (update_call demo_self (JStr "PROJ-1") [JStr "10050"])
           server_error
           (skipn 8 (snd (run scripted demo_self (demo_world script_refused_update))))).
  - reflexivity.
  - reflexivity.
  - reflexivity.
  - reflexivity.
Defined.

Lemma summary_counts_every_issue_witness :
  exists ev found issues n before,
    In ev (snd (run scripted demo_self (demo_world script_one_skipped))) /\
    is_query ev = true /\ answer_value ev = Some found /\
    py_get found "issues" (JArr []) = Ok issues /\
    py_len issues = Ok n /\
    snd (run scripted demo_self (demo_world script_one_skipped)) =
      before ++ [summary_line demo_self n] /\
    n = count is_update (snd (run scripted demo_self (demo_world script_one_skipped))) +
        count is_already_line
          (snd (run scripted demo_self (demo_world script_one_skipped))) /\
    (1 <= count is_already_line
            (snd (run scripted demo_self (demo_world script_one_skipped))) ->
     count is_update (snd (run scripted demo_self (demo_world script_one_skipped))) < n).
Proof.
  apply (summary_counts_every_issue scripted demo_self
           (demo_world script_one_skipped)
           (snd (fst (run scripted demo_self (demo_world script_one_skipped))))
           (snd (run scripted demo_self (demo_world script_one_skipped)))).
  reflexivity.
Defined.

(** C6 as the specification words it does not hold: two runs with the same
    command line and the same environment send different target dates when
    the clock differs. *)
Lemma creation_date_not_from_user_input : ~ creation_body_from_user_input.
Proof.
  intros [f Hf].
  destruct (Hf unit scenario_serve "v1.2.3" "PROJ" "Ready for Release"
              scenario_world
              [Fmt (JStr "https://your-jira-instance.atlassian.net");
               Lit "/rest/api/2/version"]
              (Some "jdoe@example.com", Some "secret") json_headers
              demo_release_data (reply 201 scenario_release)) as [_ Hday].
  { vm_compute. tauto. }
  destruct (Hf unit scenario_serve "v1.2.3" "PROJ" "Ready for Release"
              scenario_world_next_day
              [Fmt (JStr "https://your-jira-instance.atlassian.net");
               Lit "/rest/api/2/version"]
              (Some "jdoe@example.com", Some "secret") json_headers
              [("name", JStr "v1.2.3"); ("project", JStr "PROJ");
               ("released", JBool false); ("userReleaseDate", JStr "2024-03-08");
               ("projectId", JNull); ("owner", JStr "jdoe")]
              (reply 201 scenario_release)) as [_ Hnext].
  { vm_compute. tauto. }
  change (environ scenario_world_next_day) with (environ scenario_world) in Hnext.
  rewrite <- Hnext in Hday. discriminate.
Qed.

(** ** Runs of the further properties *)

Lemma unsupported_method_exits_witness :
  _make_jira_request scripted demo_self (issue_url demo_self (JStr "PROJ-1"))
    "DELETE" None None (demo_world [no_content]) =
  (Abort (SysExit 1), demo_world [no_content],
   [EvPrint [Lit "Error: Unsupported HTTP method: "; Fmt (JStr "DELETE")]]).
Proof.
  apply (unsupported_method_exits scripted demo_self
           (issue_url demo_self (JStr "PROJ-1")) "DELETE" None None
           (demo_world [no_content])).
  reflexivity.
Defined.

Lemma method_case_is_ignored_witness :
  _make_jira_request scripted demo_self (issue_url demo_self (JStr "PROJ-1"))
    "put" None (Some (fix_versions_data [JStr "10050"])) (demo_world [no_content]) =
  _make_jira_request scripted demo_self (issue_url demo_self (JStr "PROJ-1"))
    "PUT" None (Some (fix_versions_data [JStr "10050"])) (demo_world [no_content]).
Proof.
  apply (method_case_is_ignored scripted demo_self
           (issue_url demo_self (JStr "PROJ-1")) "PUT" "put" None
           (Some (fix_versions_data [JStr "10050"]))
           (update_call demo_self (JStr "PROJ-1") [JStr "10050"])
           (demo_world [no_content])).
  - reflexivity.
  - reflexivity.
Defined.

Lemma http_error_prints_one_line_witness :
  _make_jira_request scripted demo_self (issue_url demo_self (JStr "PROJ-1"))
    "PUT" None (Some (fix_versions_data [JStr "10050"])) (demo_world [server_error]) =
  (Abort (SysExit 1), with_server [] (demo_world [server_error]),
   [EvHttp (update_call demo_self (JStr "PROJ-1") [JStr "10050"]) server_error;
    EvPrint [Lit "Error making request to JIRA API: ";
             FmtExc (HTTPError {| status_code := 500;
                                  text := "Internal Server Error";
                                  json_body := None |})]]).
Proof.
  apply (http_error_prints_one_line scripted demo_self
           (issue_url demo_self (JStr "PROJ-1")) "PUT" None
           (Some (fix_versions_data [JStr "10050"]))
           (update_call demo_self (JStr "PROJ-1") [JStr "10050"])
           {| status_code := 500; text := "Internal Server Error"; json_body := None |}
           [] (demo_world [server_error])).
  - reflexivity.
  - reflexivity.
  - simpl. lia.
Defined.

Lemma raised_with_response_prints_it_witness :
  _make_jira_request scripted demo_self
    [Fmt (JStr (jira_base_url demo_self)); Lit "/rest/api/2/myself"]
    "GET" None None (demo_world [too_many_redirects]) =
  (Abort (SysExit 1), with_server [] (demo_world [too_many_redirects]),
   EvHttp (user_call demo_self) too_many_redirects ::
   EvPrint [Lit "Error making request to JIRA API: ";
            FmtExc (TransportError "Exceeded 30 redirects."
                      (Some {| status_code := 302; text := "Found";
                               json_body := None |}))] ::
   if (400 <=? 302)%Z && (302 <? 600)%Z then []
   else [EvPrint [Lit "Response status code: "; Fmt (JInt 302)];
         EvPrint [Lit "Response body: "; Fmt (JStr "Found")]]).
Proof.
  apply (raised_with_response_prints_it scripted demo_self
           [Fmt (JStr (jira_base_url demo_self)); Lit "/rest/api/2/myself"]
           "GET" None None (user_call demo_self) "Exceeded 30 redirects."
           {| status_code := 302; text := "Found"; json_body := None |}
           [] (demo_world [too_many_redirects])).
  - reflexivity.
  - reflexivity.
Defined.

Lemma other_statuses_are_decoded_witness :
  _make_jira_request scripted demo_self
    [Fmt (JStr (jira_base_url demo_self)); Lit "/rest/api/2/myself"]
    "GET" None None (demo_world [reply 302 scenario_user]) =
  if (302 =? 204)%Z || String.eqb "{...}" "" then
    (Ok (JObj []), with_server [] (demo_world [reply 302 scenario_user]),
     [EvHttp (user_call demo_self) (reply 302 scenario_user)])
  else
    match Some scenario_user with
    | Some v =>
        (Ok v, with_server [] (demo_world [reply 302 scenario_user]),
         [EvHttp (user_call demo_self) (reply 302 scenario_user)])
    | None =>
        (Abort (SysExit 1), with_server [] (demo_world [reply 302 scenario_user]),
         [EvHttp (user_call demo_self) (reply 302 scenario_user);
          EvPrint [Lit "Error making request to JIRA API: "; FmtExc JSONDecodeError]])
    end.
Proof.
  apply (other_statuses_are_decoded scripted demo_self
           [Fmt (JStr (jira_base_url demo_self)); Lit "/rest/api/2/myself"]
           "GET" None None (user_call demo_self)
           {| status_code := 302; text := "{...}"; json_body := Some scenario_user |}
           [] (demo_world [reply 302 scenario_user])).
  - reflexivity.
  - reflexivity.
  - left. simpl. lia.
Defined.

Lemma empty_credentials_exit_witness :
  main scripted "v1.2.3" "PROJ" "Ready for Release"
    {| environ := [("JIRA_USERNAME", "jdoe@example.com"); ("JIRA_API_TOKEN", "")];
       clock := {| year := 2024; month := 3; day := 7 |};
       server := [no_content] |} =
  (Abort (SysExit 1),
   {| environ := [("JIRA_USERNAME", "jdoe@example.com"); ("JIRA_API_TOKEN", "")];
      clock := {| year := 2024; month := 3; day := 7 |};
      server := [no_content] |},
   [EvPrint [Lit "Error: JIRA_USERNAME and JIRA_API_TOKEN environment variables must be set."]]).
Proof.
  apply (empty_credentials_exit scripted "v1.2.3" "PROJ" "Ready for Release"
           {| environ := [("JIRA_USERNAME", "jdoe@example.com"); ("JIRA_API_TOKEN", "")];
              clock := {| year := 2024; month := 3; day := 7 |};
              server := [no_content] |}).
  right. reflexivity.
Defined.

Lemma main_runs_the_creator_witness :
  main scenario_serve "v1.2.3" "PROJ" "Ready for Release" scenario_world =
  run scenario_serve
    (creator_of (environ scenario_world) "v1.2.3" "PROJ" "Ready for Release")
    scenario_world.
Proof.
  apply (main_runs_the_creator scenario_serve "v1.2.3" "PROJ" "Ready for Release"
           scenario_world).
  - reflexivity.
  - reflexivity.
Defined.

Lemma every_abort_exits_with_1_witness : exit_code (Uncaught "KeyError") = 1%Z.
Proof.
  apply (every_abort_exits_with_1 scripted "v1.2.3" "PROJ" "Ready for Release"
           (demo_world [reply 200 scenario_user; reply 201 scenario_release;
                        reply 200 (JObj [("issues", JArr [JObj [("id", JStr "1")]])])])
           (snd (fst (main scripted "v1.2.3" "PROJ" "Ready for Release"
              (demo_world [reply 200 scenario_user; reply 201 scenario_release;
                           reply 200 (JObj [("issues", JArr [JObj [("id", JStr "1")]])])]))))
           (Uncaught "KeyError")
           (snd (main scripted "v1.2.3" "PROJ" "Ready for Release"
              (demo_world [reply 200 scenario_user; reply 201 scenario_release;
                           reply 200 (JObj [("issues", JArr [JObj [("id", JStr "1")]])])])))).
  reflexivity.
Defined.

Lemma creation_body_owner_witness :
  exists t current_user,
    In (EvHttp (user_call demo_self) t)
       (snd (run scripted demo_self (demo_world script_no_tickets))) /\
    response_value t = inr current_user /\
    lookup "owner" demo_release_data = owner_of current_user /\
    lookup "name" demo_release_data = Some (JStr (release_name demo_self)) /\
    lookup "project" demo_release_data = Some (JStr (project_name demo_self)) /\
    lookup "projectId" demo_release_data = Some JNull.
Proof.
  apply (creation_body_owner scripted demo_self (demo_world script_no_tickets)
           (snd (fst (run scripted demo_self (demo_world script_no_tickets))))
           (fst (fst (run scripted demo_self (demo_world script_no_tickets))))
           (snd (run scripted demo_self (demo_world script_no_tickets)))
           [Fmt (JStr (jira_base_url demo_self)); Lit "/rest/api/2/version"]
           (auth_of demo_self) json_headers demo_release_data
           (reply 201 scenario_release)).
  - reflexivity.
  - vm_compute. tauto.
Defined.

Lemma falsy_release_id_aborts_witness :
  fst (fst (run scripted demo_self (demo_world script_falsy_id))) = Abort (SysExit 1) /\
  Forall (fun ev' => is_query ev' = false /\ is_update ev' = false)
    (snd (run scripted demo_self (demo_world script_falsy_id))) /\
  exists before,
    snd (run scripted demo_self (demo_world script_falsy_id)) = before ++ [no_id_line].
Proof.
  apply (falsy_release_id_aborts scripted demo_self (demo_world script_falsy_id)
           (snd (fst (run scripted demo_self (demo_world script_falsy_id))))
           (fst (fst (run scripted demo_self (demo_world script_falsy_id))))
           (snd (run scripted demo_self (demo_world script_falsy_id)))
           (EvHttp (create_call demo_self demo_release_data)
              (reply 201 (JObj [("id", JStr ""); ("name", JStr "v1.2.3")])))
           (JObj [("id", JStr ""); ("name", JStr "v1.2.3")]) (JStr "")).
  - reflexivity.
  - vm_compute. tauto.
  - reflexivity.
  - reflexivity.
  - reflexivity.
  - reflexivity.
Defined.

Lemma updates_are_for_given_tickets_witness :
  exists its issue issue_key ids,
    py_iter (JArr [ticket "PROJ-1" []; ticket "PROJ-2" ["9000"]]) = Ok its /\
    In issue its /\
    py_getitem issue "key" = Ok issue_key /\
    current_fix_version_ids issue = Ok ids /\
    py_in (JStr "10050") ids = false /\
    issue_url demo_self (JStr "PROJ-2") = issue_url demo_self issue_key /\
    Some (fix_versions_data [JStr "9000"; JStr "10050"]) =
      Some (fix_versions_data (ids ++ [JStr "10050"])).
Proof.
  apply (updates_are_for_given_tickets scripted demo_self (JStr "10050")
           (JArr [ticket "PROJ-1" []; ticket "PROJ-2" ["9000"]])
           (demo_world [no_content; no_content])
           (snd (fst (add_fix_version_to_tickets scripted demo_self (JStr "10050")
                        (JArr [ticket "PROJ-1" []; ticket "PROJ-2" ["9000"]])
                        (demo_world [no_content; no_content]))))
           (fst (fst (add_fix_version_to_tickets scripted demo_self (JStr "10050")
                        (JArr [ticket "PROJ-1" []; ticket "PROJ-2" ["9000"]])
                        (demo_world [no_content; no_content]))))
           (snd (add_fix_version_to_tickets scripted demo_self (JStr "10050")
                   (JArr [ticket "PROJ-1" []; ticket "PROJ-2" ["9000"]])
                   (demo_world [no_content; no_content])))
           (issue_url demo_self (JStr "PROJ-2")) (auth_of demo_self) json_headers
           (Some (fix_versions_data [JStr "9000"; JStr "10050"])) no_content).
  - reflexivity.
  - vm_compute. tauto.
Defined.

Lemma updates_carry_the_created_release_witness :
  exists ev release release_id ids,
    In ev (snd (run scripted demo_self (demo_world script_refused_update))) /\
    is_creation ev = true /\
    answer_value ev = Some release /\
    py_get release "id" JNull = Ok release_id /\
    py_truthy release_id = true /\
    Some (fix_versions_data [JStr "10050"]) =
      Some (fix_versions_data (ids ++ [release_id])).
Proof.
  apply (updates_carry_the_created_release scripted demo_self
           (demo_world script_refused_update)
           (snd (fst (run scripted demo_self (demo_world script_refused_update))))
           (fst (fst (run scripted demo_self (demo_world script_refused_update))))
           (snd (run scripted demo_self (demo_world script_refused_update)))
           (issue_url demo_self (JStr "PROJ-1")) (auth_of demo_self) json_headers
           (Some (fix_versions_data [JStr "10050"])) server_error).
  - reflexivity.
  - vm_compute. tauto.
Defined.

Lemma requests_are_addressed_to_the_tracker_witness :
  Forall (addressed_by demo_self)
    (snd (run scripted demo_self (demo_world script_one_skipped))).
Proof.
  apply (requests_are_addressed_to_the_tracker scripted demo_self
           (demo_world script_one_skipped)
           (snd (fst (run scripted demo_self (demo_world script_one_skipped))))
           (fst (fst (run scripted demo_self (demo_world script_one_skipped))))
           (snd (run scripted demo_self (demo_world script_one_skipped)))).
  reflexivity.
Defined.

Lemma no_request_is_repeated_witness :
  count is_creation (snd (run scripted demo_self (demo_world script_one_skipped))) <= 1 /\
  count is_query (snd (run scripted demo_self (demo_world script_one_skipped))) <= 1 /\
  count is_http (snd (run scripted demo_self (demo_world script_one_skipped))) <=
    3 + count is_update (snd (run scripted demo_self (demo_world script_one_skipped))).
Proof.
  apply (no_request_is_repeated scripted demo_self (demo_world script_one_skipped)
           (snd (fst (run scripted demo_self (demo_world script_one_skipped))))
           (fst (fst (run scripted demo_self (demo_world script_one_skipped))))
           (snd (run scripted demo_self (demo_world script_one_skipped)))).
  reflexivity.
Defined.

Lemma returned_tickets_are_iterable_witness :
  exists t its,
    py_iter (JArr [JObj [("key", JStr "PROJ-1");
                         ("fields", JObj [("fixVersions", JArr [])])];
                   JObj [("key", JStr "PROJ-2");
                         ("fields",
                          JObj [("fixVersions", JArr [JObj [("id", JStr "9000")]])])]]) =
      Ok its /\
    py_len (JArr [JObj [("key", JStr "PROJ-1");
                        ("fields", JObj [("fixVersions", JArr [])])];
                  JObj [("key", JStr "PROJ-2");
                        ("fields",
                         JObj [("fixVersions", JArr [JObj [("id", JStr "9000")]])])]]) =
      Ok (length its) /\
    [EvHttp (query_call demo_self) (reply 200 scenario_found); found_line demo_self 2] =
    [EvHttp (query_call demo_self) t; found_line demo_self (length its)].
Proof.
  apply (returned_tickets_are_iterable scripted demo_self
           (demo_world [reply 200 scenario_found]) (demo_world [])).
  reflexivity.
Defined.

Lemma tickets_are_processed_in_order_witness :
  map_result (fun issue => py_getitem issue "key")
    [ticket "PROJ-1" []; ticket "PROJ-2" ["10050"]; ticket "PROJ-3" ["9000"]] =
  Ok (ticket_keys
        (snd (add_fix_version_to_tickets scripted demo_self (JStr "10050")
                (JArr [ticket "PROJ-1" []; ticket "PROJ-2" ["10050"];
                       ticket "PROJ-3" ["9000"]])
                (demo_world [no_content; no_content])))) /\
  count is_update
    (snd (add_fix_version_to_tickets scripted demo_self (JStr "10050")
            (JArr [ticket "PROJ-1" []; ticket "PROJ-2" ["10050"];
                   ticket "PROJ-3" ["9000"]])
            (demo_world [no_content; no_content]))) <=
  length [ticket "PROJ-1" []; ticket "PROJ-2" ["10050"]; ticket "PROJ-3" ["9000"]].
Proof.
  apply (tickets_are_processed_in_order scripted demo_self (JStr "10050")
           [ticket "PROJ-1" []; ticket "PROJ-2" ["10050"]; ticket "PROJ-3" ["9000"]]
           (demo_world [no_content; no_content]) (demo_world [])).
  reflexivity.
Defined.

Lemma unreadable_ticket_stops_the_loop_witness :
  add_fix_version_to_tickets scripted demo_self (JStr "10050")
    (JArr ([ticket "PROJ-1" []] ++ JObj [("summary", JStr "no key")]
           :: [ticket "PROJ-3" []]))
    (demo_world [no_content; no_content]) =
  (Abort KeyError, demo_world [no_content],
   [EvHttp (update_call demo_self (JStr "PROJ-1") [JStr "10050"]) no_content;
    added_line (JStr "PROJ-1")]) /\
  exists exc, KeyError = Uncaught exc.
Proof.
  apply (unreadable_ticket_stops_the_loop scripted demo_self (JStr "10050")
           [ticket "PROJ-1" []] (JObj [("summary", JStr "no key")])
           [ticket "PROJ-3" []]
           (demo_world [no_content; no_content]) (demo_world [no_content])).
  - reflexivity.
  - left. reflexivity.
Defined.

Lemma updated_ticket_is_skipped_witness :
  add_fix_version_to_ticket scripted demo_self (JStr "10050")
    (ticket "PROJ-2" ["9000"; "10050"]) (demo_world [no_content]) =
  (Ok tt, demo_world [no_content], [already_line (JStr "PROJ-2")]).
Proof.
  apply (updated_ticket_is_skipped scripted demo_self (JStr "10050")
           (ticket "PROJ-2" ["9000"; "10050"]) (JStr "PROJ-2")
           [JStr "9000"; JStr "10050"] (demo_world [no_content])).
  - reflexivity.
  - reflexivity.
  - reflexivity.
  - simpl. tauto.
Defined.

Lemma any_failed_request_ends_the_run_witness :
  fst (fst (run scripted demo_self (demo_world [server_error]))) = Abort (SysExit 1) /\
  Forall (fun ev => is_http ev = false)
    (skipn 2 (snd (run scripted demo_self (demo_world [server_error])))).
Proof.
  apply (any_failed_request_ends_the_run scripted demo_self
           (demo_world [server_error])
           (snd (fst (run scripted demo_self (demo_world [server_error]))))
           (fst (fst (run scripted demo_self (demo_world [server_error]))))
           (snd (run scripted demo_self (demo_world [server_error])))
           [start_line] (user_call demo_self) server_error
           (skipn 2 (snd (run scripted demo_self (demo_world [server_error]))))).
  - reflexivity.
  - reflexivity.
  - reflexivity.
Defined.
